(** * Shopify customer management app: the two request handlers of [app.js]

    A shallow embedding of [src/app.js]: the validators ([urlRegex],
    [getMimeType], [convertToE164], the website normalisation of
    [/register]) as functions on JavaScript strings, and the two Express
    handlers ([POST /upload], [POST /register]) as programs in a small
    trace-and-exception monad whose awaited remote calls are answered by an
    environment. *)

From Stdlib Require Import List NArith ZArith Bool String Ascii Lia.
Import ListNotations.

Set Warnings "-register-all".
Local Open Scope N_scope.

(** ** JavaScript strings and values *)

(** A JavaScript string is a sequence of UTF-16 code units. [String.length],
    [startsWith], [+] and regular expressions without the [u] flag all work
    on code units. *)
Definition code_unit := N.
Definition jsstring := list code_unit.

(** The literals of [app.js] are ASCII; [lit] reads one as code units. *)
Definition lit (s : string) : jsstring :=
  map N_of_ascii (list_ascii_of_string s).

Fixpoint jsstring_eqb (a b : jsstring) : bool :=
  match a, b with
  | [], [] => true
  | x :: a', y :: b' => (x =? y) && jsstring_eqb a' b'
  | _, _ => false
  end.

(** [s.startsWith(p)] *)
Fixpoint startsWith (p s : jsstring) : bool :=
  match p, s with
  | [], _ => true
  | x :: p', y :: s' => (x =? y) && startsWith p' s'
  | _ :: _, [] => false
  end.

(** [String.prototype.toLowerCase] on the code units A-Z. The only code
    units outside ASCII whose lower case contains an ASCII letter are U+212A
    (k) and U+0130 (i); neither letter occurs in a case label of
    [getMimeType], so for that switch the ASCII mapping decides the same
    branch as the full Unicode mapping. *)
Definition lower_unit (c : code_unit) : code_unit :=
  if (65 <=? c) && (c <=? 90) then c + 32 else c.

Definition toLowerCase (s : jsstring) : jsstring := map lower_unit s.

(** The values the handlers see in a parsed request body or in the JSON of
    a remote response: [undefined], [null], strings, arrays and objects
    (an object is the list of its own properties, each name once). An
    object of JSON or of an object literal inherits from
    [Object.prototype]; the objects multer builds for nested field names
    such as [customerCompany[name]] are made with [Object.create(null)] and
    inherit nothing. No value is a function. *)
Inductive value : Type :=
| VUndefined
| VNull
| VString (s : jsstring)
| VArray (elems : list value)
| VObject (props : list (jsstring * value))
| VNullProto (props : list (jsstring * value)).

(** What can be thrown inside a handler. *)
Inductive error : Type :=
| TypeError        (* property read on undefined/null, call of a non-function *)
| HeadersSent      (* ERR_HTTP_HEADERS_SENT: response already committed *)
| RequestFailed    (* a rejected axios or Graph promise *)
| LibraryError.    (* an Error raised inside the form-data library *)

Inductive completion (A : Type) : Type :=
| Normal (a : A)
| Throw (e : error).
Arguments Normal {A} a.
Arguments Throw {A} e.

(** ToBoolean *)
Definition truthy (v : value) : bool :=
  match v with
  | VUndefined | VNull => false
  | VString [] => false
  | VString (_ :: _) => true
  | VArray _ | VObject _ | VNullProto _ => true
  end.

Definition has_key (k : jsstring) (props : list (jsstring * value)) : bool :=
  existsb (fun kv => jsstring_eqb k (fst kv)) props.

(** ToString, as a template literal applies it. On an object it is
    OrdinaryToPrimitive: an own [toString] property, never callable here,
    leaves only [Object.prototype.valueOf], which returns the object, and
    the conversion throws a TypeError; without one, [Object.prototype.toString]
    answers. An object that inherits nothing has neither method. An array
    joins the texts of its elements, empty for [undefined] and [null]. *)
Fixpoint ToString (v : value) : completion jsstring :=
  match v with
  | VUndefined => Normal (lit "undefined")
  | VNull => Normal (lit "null")
  | VString s => Normal s
  | VObject props =>
      if has_key (lit "toString") props then Throw TypeError
      else Normal (lit "[object Object]")
  | VNullProto _ => Throw TypeError
  | VArray vs =>
      (fix join (l : list value) : completion jsstring :=
         match l with
         | [] => Normal []
         | x :: rest =>
             match match x with
                   | VUndefined | VNull => Normal []
                   | _ => ToString x
                   end with
             | Throw e => Throw e
             | Normal sx =>
                 match rest with
                 | [] => Normal sx
                 | _ :: _ =>
                     match join rest with
                     | Throw e => Throw e
                     | Normal sr => Normal (sx ++ lit "," ++ sr)
                     end
                 end
             end
         end) vs
  end.

(** The text of a value that has one: what [ToString] returns when it
    returns. *)
Definition to_string (v : value) : jsstring :=
  match ToString v with
  | Normal s => s
  | Throw _ => []
  end.

Fixpoint lookup (k : jsstring) (props : list (jsstring * value)) : value :=
  match props with
  | [] => VUndefined
  | (k', v) :: rest => if jsstring_eqb k k' then v else lookup k rest
  end.

(** [v.k] for the property names the handlers read ([data],
    [stagedTargets], [parameters], [url], [id], ...): none of them is a
    property of a string or of an array, and none is inherited from
    [Object.prototype]. *)
Definition get (v : value) (k : string) : completion value :=
  match v with
  | VUndefined | VNull => Throw TypeError
  | VObject props | VNullProto props => Normal (lookup (lit k) props)
  | VString _ | VArray _ => Normal VUndefined
  end.

(** [v[0]] *)
Definition first (v : value) : completion value :=
  match v with
  | VUndefined | VNull => Throw TypeError
  | VArray [] => Normal VUndefined
  | VArray (x :: _) => Normal x
  | VString [] => Normal VUndefined
  | VString (c :: _) => Normal (VString [c])
  | VObject props | VNullProto props => Normal (lookup (lit "0") props)
  end.

Definition and_then {A B} (c : completion A) (k : A -> completion B) : completion B :=
  match c with
  | Normal a => k a
  | Throw e => Throw e
  end.

Declare Scope completion_scope.
Delimit Scope completion_scope with completion.
Notation "x <- c ;; k" := (and_then c (fun x => k))
  (at level 100, c at next level, right associativity) : completion_scope.

(** A chain of reads [v.a.b[0].c], left to right; the first read of a
    property of [undefined] or [null] throws. *)
Inductive accessor : Type :=
| Key (k : string)
| Index0.

Fixpoint get_path (v : value) (path : list accessor) : completion value :=
  match path with
  | [] => Normal v
  | Key k :: rest => and_then (get v k) (fun v' => get_path v' rest)
  | Index0 :: rest => and_then (first v) (fun v' => get_path v' rest)
  end.

(** ** Regular expressions

    The fragment of the regular-expression syntax that [urlRegex] uses,
    over code units, matched by Brzozowski derivatives. *)
Module Regex.

Inductive regex : Type :=
| Void                                (* matches nothing *)
| Eps                                 (* matches the empty string *)
| Chr (c : code_unit)                 (* a literal character *)
| NoneOf (cs : list code_unit)        (* a negated class [^...] *)
| Cat (r1 r2 : regex)
| Alt (r1 r2 : regex)
| Star (r : regex).

(** [r+] *)
Definition Plus (r : regex) : regex := Cat r (Star r).

(** a literal run of characters *)
Definition Str (s : jsstring) : regex :=
  fold_right (fun c r => Cat (Chr c) r) Eps s.

Fixpoint nullable (r : regex) : bool :=
  match r with
  | Void => false
  | Eps => true
  | Chr _ => false
  | NoneOf _ => false
  | Cat r1 r2 => nullable r1 && nullable r2
  | Alt r1 r2 => nullable r1 || nullable r2
  | Star _ => true
  end.

Definition mem (c : code_unit) (cs : list code_unit) : bool :=
  existsb (N.eqb c) cs.

Fixpoint deriv (c : code_unit) (r : regex) : regex :=
  match r with
  | Void => Void
  | Eps => Void
  | Chr c' => if c =? c' then Eps else Void
  | NoneOf cs => if mem c cs then Void else Eps
  | Cat r1 r2 =>
      if nullable r1
      then Alt (Cat (deriv c r1) r2) (deriv c r2)
      else Cat (deriv c r1) r2
  | Alt r1 r2 => Alt (deriv c r1) (deriv c r2)
  | Star r1 => Cat (deriv c r1) (Star r1)
  end.

(** Whole-string match: what [/^r$/.test(s)] returns (no flags, so [^]
    and [$] are the two ends of the input). *)
Fixpoint matches (r : regex) (s : jsstring) : bool :=
  match s with
  | [] => nullable r
  | c :: s' => matches (deriv c r) s'
  end.

(** The language of a regular expression. *)
Inductive lang : regex -> jsstring -> Prop :=
| lang_eps : lang Eps []
| lang_chr c : lang (Chr c) [c]
| lang_noneof cs c : ~ In c cs -> lang (NoneOf cs) [c]
| lang_cat r1 r2 s1 s2 : lang r1 s1 -> lang r2 s2 -> lang (Cat r1 r2) (s1 ++ s2)
| lang_alt_l r1 r2 s : lang r1 s -> lang (Alt r1 r2) s
| lang_alt_r r1 r2 s : lang r2 s -> lang (Alt r1 r2) s
| lang_star_nil r : lang (Star r) []
| lang_star_cons r s1 s2 : lang r s1 -> lang (Star r) s2 -> lang (Star r) (s1 ++ s2).

End Regex.

(** ** Validators and normalisers of [app.js] *)

(** The regular expression [urlRegex] of line 24: one of the schemes ftp,
    http, https, then a colon and two slashes, then one or more characters
    of a negated class that excludes the space U+0020 and the double quote
    U+0022, between the anchors of the two ends of the input. *)
Definition urlRegex : Regex.regex :=
  Regex.Cat
    (Regex.Alt (Regex.Str (lit "ftp"))
       (Regex.Alt (Regex.Str (lit "http")) (Regex.Str (lit "https"))))
    (Regex.Cat (Regex.Str (lit "://")) (Regex.Plus (Regex.NoneOf [32; 34]))).

(** [urlRegex.test(s)] *)
Definition urlRegex_test (s : jsstring) : bool := Regex.matches urlRegex s.

(** [getMimeType(extension)] (lines 82-94); [None] is [null]. *)
Definition getMimeType (extension : jsstring) : option jsstring :=
  let e := toLowerCase extension in
  if jsstring_eqb e (lit ".png") then Some (lit "image/png")
  else if jsstring_eqb e (lit ".jpg") then Some (lit "image/jpeg")
  else if jsstring_eqb e (lit ".jpeg") then Some (lit "image/jpeg")
  else if jsstring_eqb e (lit ".pdf") then Some (lit "application/pdf")
  else None.

(** [\d] and [\D] without the [u] flag: the code units 0-9 and the rest. *)
Definition is_digit (c : code_unit) : bool := (48 <=? c) && (c <=? 57).

(** [phoneNumber.replace(/\D/g, '')] on a string: every code unit that
    [\D] matches is deleted. *)
Definition strip_non_digits (s : jsstring) : jsstring := filter is_digit s.

(** [convertToE164] (lines 366-381). The parameter is whatever the caller
    passes. Only a string has a [replace] method: on an object or an array
    [phoneNumber.replace] is [undefined] and the call throws, on
    [undefined] and [null] the property read throws. *)
Definition convertToE164 (phoneNumber : value) : completion value :=
  match phoneNumber with
  | VString s =>
      let digitsOnly := strip_non_digits s in
      if startsWith (lit "1") digitsOnly && (N.of_nat (List.length digitsOnly) =? 11)
      then Normal (VString (lit "+" ++ digitsOnly))
      else if N.of_nat (List.length digitsOnly) =? 10
      then Normal (VString (lit "+1" ++ digitsOnly))
      else Normal VNull
  | VUndefined | VNull | VArray _ | VObject _ | VNullProto _ => Throw TypeError
  end.

(** The value of [website] after lines 360-363 of [/register], for a
    string [companyWebsite]. *)
Definition normalizeWebsite (companyWebsite : jsstring) : jsstring :=
  if negb (startsWith (lit "http://") companyWebsite)
     && negb (startsWith (lit "https://") companyWebsite)
  then lit "http://" ++ companyWebsite
  else companyWebsite.

(** ** Requests, remote calls and responses *)

(** The file multer puts on the request (memory storage). *)
Record uploaded_file : Type := {
  originalname : jsstring;
  buffer : list N
}.

(** [POST /upload]. A multipart request has [req.body] set by multer,
    with the text fields of the form, and [req.file] when the form carried
    the field [tax_exempt_form]; a field multer built from a nested name is
    an array or an object that inherits nothing. A request that is not
    multipart has no file, and its [req.body] is what body-parser left:
    an object, or nothing at all when no parser took the request. *)
Inductive upload_request : Type :=
| NoBody
| Body (customerId customerCompany : value) (file : option uploaded_file).

Definition has_body (req : upload_request) : bool :=
  match req with
  | NoBody => false
  | Body _ _ _ => true
  end.

(** The two fields the handler destructures from [req.body] and
    [req.file]; a field the form left out is [undefined]. *)
Definition customerId (req : upload_request) : value :=
  match req with
  | NoBody => VUndefined
  | Body c _ _ => c
  end.

Definition customerCompany (req : upload_request) : value :=
  match req with
  | NoBody => VUndefined
  | Body _ c _ => c
  end.

Definition file (req : upload_request) : option uploaded_file :=
  match req with
  | NoBody => None
  | Body _ _ f => f
  end.

(** [POST /register]: the six body fields the handler destructures; a
    field the client left out is [VUndefined]. *)
Record register_request : Type := {
  companyName : value;
  firstName : value;
  lastName : value;
  email : value;
  companyWebsite : value;
  phoneNumber : value
}.

Record metafield : Type := {
  mf_key : jsstring;
  mf_namespace : jsstring;
  mf_type : jsstring;
  mf_value : value
}.

Record address : Type := {
  addr_company : value;
  addr_firstName : value;
  addr_lastName : value;
  addr_phone : value
}.

(** [createCustomerVariables.input] *)
Record customer_input : Type := {
  in_email : value;
  in_phone : value;
  in_firstName : value;
  in_lastName : value;
  in_addresses : list address;
  in_metafields : list metafield
}.

(** The five mutations posted to [shopifyAPIUrl], each with its variables. *)
Inductive mutation : Type :=
| stagedUploadsCreate (filename httpMethod mimeType resource : jsstring)
| fileCreate (contentType : jsstring) (originalSource : value)
| metafieldsSet (key namespace ownerId type : jsstring) (val : value)
| customerCreate (input : customer_input)
| customerGenerateAccountActivationUrl (customer : value).

(** A multipart form: its fields in the order they were appended. *)
Inductive form_content : Type :=
| FormText (s : jsstring)
| FormBuffer (bytes : list N).

Definition form_data : Type := list (jsstring * form_content).

(** A Graph [sendMail] payload. *)
Record mail : Type := {
  subject : jsstring;
  body_contentType : jsstring;
  body_content : jsstring;
  toRecipient : value;
  sender : jsstring;
  saveToSentItems : jsstring
}.

(** The response committed to the client. *)
Inductive response : Type :=
| Send (status : N) (body : jsstring)      (* res.status(n).send(body) *)
| Redirect (location : jsstring).          (* res.redirect(location) *)

Inductive logged : Type :=
| LogNothing
| LogError (e : error)
| LogValue (v : value).

(** What a handler does that the outside can see, in order. *)
Inductive event : Type :=
| Cookie (name val : jsstring) (maxAge : N)
| ShopifyPost (m : mutation)
| TargetPost (url : value) (form : form_data)
| SendMail (m : mail)
| Console (msg : jsstring) (what : logged)
| Respond (r : response).

(** How an awaited promise settles. *)
Inductive outcome (A : Type) : Type :=
| Resolved (a : A)
| Rejected.
Arguments Resolved {A} a.
Arguments Rejected {A}.

(** The replies of the outside world to the remote calls of one upload,
    each of which the handler makes at most once: a resolved post carries
    the body of the reply. *)
Record upload_env : Type := {
  staged_reply : outcome value;
  target_reply : outcome value;
  file_reply : outcome value;
  metafield_reply : outcome value;
  mail_reply : outcome unit
}.

(** The replies to the remote calls of one registration. *)
Record register_env : Type := {
  customer_reply : outcome value;
  activation_reply : outcome value;
  activation_mail_reply : outcome unit;
  staff_mail_reply : outcome unit
}.

(** ** The handler monad: a trace of events, and exceptions *)

Definition M (A : Type) : Type := list event -> completion A * list event.

Definition ret {A} (a : A) : M A := fun t => (Normal a, t).

Definition bind {A B} (m : M A) (k : A -> M B) : M B :=
  fun t =>
    match m t with
    | (Normal a, t') => k a t'
    | (Throw e, t') => (Throw e, t')
    end.

Definition throw {A} (e : error) : M A := fun t => (Throw e, t).

Definition emit (e : event) : M unit := fun t => (Normal tt, t ++ [e]).

(** [try { body } catch (error) { handler }], and [promise.catch(handler)]
    under [await]: the events of [body] up to the throw stay. *)
Definition try_catch {A} (body : M A) (handler : error -> M A) : M A :=
  fun t =>
    match body t with
    | (Normal a, t') => (Normal a, t')
    | (Throw e, t') => handler e t'
    end.

Declare Scope handler_scope.
Delimit Scope handler_scope with handler.
Notation "x <- m ;; k" := (bind m (fun x => k))
  (at level 100, m at next level, right associativity) : handler_scope.
Notation "m ;; k" := (bind m (fun _ => k))
  (at level 100, right associativity) : handler_scope.
Local Open Scope handler_scope.

Definition lift {A} (c : completion A) : M A :=
  match c with
  | Normal a => ret a
  | Throw e => throw e
  end.

Definition await {A} (o : outcome A) : M A :=
  match o with
  | Resolved a => ret a
  | Rejected => throw RequestFailed
  end.

Definition is_respond (e : event) : bool :=
  match e with
  | Respond _ => true
  | _ => false
  end.

(** [res.headersSent] *)
Definition headers_sent (t : list event) : bool := existsb is_respond t.

(** Express refuses to set a header once the response is committed. *)
Definition res_cookie (name val : jsstring) (maxAge : N) : M unit :=
  fun t => if headers_sent t then (Throw HeadersSent, t)
           else (Normal tt, t ++ [Cookie name val maxAge]).

Definition res_commit (r : response) : M unit :=
  fun t => if headers_sent t then (Throw HeadersSent, t)
           else (Normal tt, t ++ [Respond r]).

(** [res.send(body)] with the default status. *)
Definition res_send (body : jsstring) : M unit := res_commit (Send 200 body).

(** [res.status(n).send(body)] *)
Definition res_status_send (status : N) (body : jsstring) : M unit :=
  res_commit (Send status body).

Definition res_redirect (location : jsstring) : M unit :=
  res_commit (Redirect location).

Definition console (msg : string) (what : logged) : M unit :=
  emit (Console (lit msg) what).

(** The response object of axios: the reply's JSON is its [data]. *)
Definition axios_response (body : value) : value :=
  VObject [(lit "data", body)].

(** [axios.post(shopifyAPIUrl, {query, variables}, {headers})] *)
Definition axios_post_shopify (m : mutation) (reply : outcome value) : M value :=
  emit (ShopifyPost m);;
  body <- await reply;;
  ret (axios_response body).

(** [axios.post(url, form, {headers})] *)
Definition axios_post_form (url : value) (form : form_data)
    (reply : outcome value) : M value :=
  emit (TargetPost url form);;
  body <- await reply;;
  ret (axios_response body).

(** [msGraphClient.api('/users/.../sendMail').post(message)] *)
Definition graph_sendMail (m : mail) (reply : outcome unit) : M unit :=
  emit (SendMail m);;
  await reply.

(** The Express response object as a value: an object, of which the
    handlers only observe that it is truthy. *)
Definition res_object : value := VObject [].

(** The final state of a handler run on an empty trace. *)
Definition run {A} (m : M A) : completion A * list event := m [].

Definition trace_of {A} (m : M A) : list event := snd (run m).

(** The response the client receives: the first one committed. *)
Definition response_of (t : list event) : option response :=
  match filter is_respond t with
  | Respond r :: _ => Some r
  | _ => None
  end.

(** Run from any trace, [m] keeps it and appends events that satisfy [P]. *)
Definition emits_only (P : event -> Prop) {A} (m : M A) : Prop :=
  forall t, exists t', snd (m t) = t ++ t' /\ Forall P t'.

(** ** [POST /upload] (lines 100-348) *)

Definition quote : jsstring := [34].
Definition newline : jsstring := [10].

(** The destination of [res.redirect] on both handlers' last line. *)
Definition success_url : jsstring :=
  lit "https://[REDACTED].myshopify.com/account".

Definition errorMessage : jsstring :=
  lit "Invalid file type: Please submit a JPG, PNG, or PDF.".

(** The body sent for a file type that does not classify (line 146). *)
Definition invalid_type_page : jsstring :=
  lit "<script>alert('" ++ errorMessage
  ++ lit "'); window.location.href = 'https://https://[REDACTED].myshopify.com/account';</script>".

(** [form.append(field, value)] of the form-data library: an array is
    refused with an Error; for a string value the field name is
    concatenated into the part header and the value becomes the part body;
    any other value fails with a TypeError inside the library. *)
Definition form_append (field v : value) (form : form_data) : completion form_data :=
  match v with
  | VString s =>
      match ToString field with
      | Normal name => Normal (form ++ [(name, FormText s)])
      | Throw e => Throw e
      end
  | VArray _ => Throw LibraryError
  | VUndefined | VNull | VObject _ | VNullProto _ => Throw TypeError
  end.

(** The callback of [params.forEach] over the elements of the array:
    destructuring [{ name, value }] throws on [undefined] and [null]. *)
Fixpoint append_params (elems : list value) (form : form_data) : completion form_data :=
  match elems with
  | [] => Normal form
  | p :: rest =>
      match get p "name", get p "value" with
      | Normal name, Normal v =>
          match form_append name v form with
          | Normal form' => append_params rest form'
          | Throw e => Throw e
          end
      | Throw e, _ => Throw e
      | _, Throw e => Throw e
      end
  end.

(** [params.forEach(...)]: only an array has [forEach]. *)
Definition forEach_append (params : value) (form : form_data) : completion form_data :=
  match params with
  | VArray elems => append_params elems form
  | VUndefined | VNull | VString _ | VObject _ | VNullProto _ => Throw TypeError
  end.

Definition taxExemptDocumentUploadEmail (customerCompany customerId : value) : mail :=
  {| subject := lit "New tax exempt document uploaded for " ++ to_string customerCompany;
     body_contentType := lit "html";
     body_content :=
       to_string customerCompany ++ lit " has uploaded a new tax exempt document"
       ++ newline ++ lit "<a href=" ++ quote
       ++ lit "https://[REDACTED].myshopify.com/admin/customers/" ++ to_string customerId
       ++ quote ++ lit ">Click here to review the document and approve the customer</a>.";
     toRecipient := VString (lit "[REDACTED]");
     sender := lit "[REDACTED]";
     saveToSentItems := lit "true" |}.

(** Evaluating the object literal of lines 312-333: its template
    literals convert [customerCompany] and [customerId] to text, and throw
    when one of them has none. *)
Definition taxExemptDocumentUploadEmail_literal (customerCompany customerId : value)
  : completion mail :=
  (_ <- ToString customerCompany;;
   _ <- ToString customerId;;
   Normal (taxExemptDocumentUploadEmail customerCompany customerId))%completion.

(** The callback of the [catch] on the transfer (lines 203-206); it
    returns [res]. *)
Definition transfer_failed (error : error) : M value :=
  console "Error downloading file: " (LogError error);;
  res_status_send 500 (lit "Internal Server Error");;
  ret res_object.

(** The callback of the [catch] on the metafield post (lines 305-308). *)
Definition metafield_failed (error : error) : M value :=
  console "Error creating metafields: " (LogError error);;
  res_status_send 500 (lit "Internal Server Error");;
  ret res_object.

(** The [catch] block of the upload handler (lines 344-347). *)
Definition upload_failed (error : error) : M unit :=
  console "Error processing file upload:" (LogError error);;
  res_status_send 500 (lit "Internal Server Error").

(** Lines 174-178: the first staged target of the reply, as its
    [parameters], [url] and [resourceUrl]. *)
Definition save_target_info (stagedUploadsQueryResult : value)
  : completion (value * value * value) :=
  (target <- get_path stagedUploadsQueryResult
               [Key "data"; Key "data"; Key "stagedUploadsCreate";
                Key "stagedTargets"; Index0];;
   params <- get target "parameters";;
   url <- get target "url";;
   resourceUrl <- get target "resourceUrl";;
   Normal (params, url, resourceUrl))%completion.

(** Lines 262-343: link the file to the customer with a metafield, notify
    the staff, redirect. The owner id is a template literal over
    [customerId] (line 286). Both the response of axios and [res], which
    the [catch] callback returns, are objects. *)
Definition upload_link_file (req : upload_request) (fileId : value)
    (env : upload_env) : M unit :=
  customer <- lift (ToString (customerId req));;
  setMetafieldQueryResult <-
    try_catch
      (axios_post_shopify
         (metafieldsSet (lit "tax_exempt_form") (lit "tax_exempt_forms")
            (lit "gid://shopify/Customer/" ++ customer)
            (lit "file_reference") fileId)
         (metafield_reply env))
      metafield_failed;;
  if truthy setMetafieldQueryResult then
    message <- lift (taxExemptDocumentUploadEmail_literal
                       (customerCompany req) (customerId req));;
    graph_sendMail message (mail_reply env);;
    res_redirect success_url
  else
    console "There was an error uploading the document" LogNothing;;
    res_status_send 500 (lit "Internal Server Error").

(** Lines 208-343, from the section comment of the file creation on:
    create the file from the resource URL, then link it. *)
Definition upload_create_file (req : upload_request) (mimeType : jsstring)
    (resourceUrl : value) (env : upload_env) : M unit :=
  createFileQueryResult <-
    axios_post_shopify
      (fileCreate
         (if jsstring_eqb mimeType (lit "application/pdf") then lit "FILE" else lit "IMAGE")
         resourceUrl)
      (file_reply env);;
  fileId <- lift (get_path createFileQueryResult
                    [Key "data"; Key "data"; Key "fileCreate"; Key "files";
                     Index0; Key "id"]);;
  upload_link_file req fileId env.

(** Lines 149-343: the handler once the MIME type is known. The file
    name is a template literal over [customerCompany] (line 152). The
    callback of the [catch] on the transfer returns to the [await], not out
    of the handler. *)
Definition upload_classified (req : upload_request) (f : uploaded_file)
    (fileExtension mimeType : jsstring) (env : upload_env) : M unit :=
  company <- lift (ToString (customerCompany req));;
  stagedUploadsQueryResult <-
    axios_post_shopify
      (stagedUploadsCreate
         (company ++ lit " Tax Exempt Form" ++ fileExtension)
         (lit "POST") mimeType (lit "FILE"))
      (staged_reply env);;
  target <- lift (save_target_info stagedUploadsQueryResult);;
  let '(params, url, resourceUrl) := target in
  form <- lift (forEach_append params []);;
  let form := form ++ [(lit "file", FormBuffer (buffer f))] in
  try_catch
    (axios_post_form url form (target_reply env))
    transfer_failed;;
  upload_create_file req mimeType resourceUrl env.

Section Upload.

(** [path.extname] of Node's path module. *)
Variable extname : jsstring -> jsstring.

(** The handler of [app.post('/upload', ...)]. Line 103 destructures
    [req.body] first, and throws when there is none. *)
Definition upload_handler (req : upload_request) (env : upload_env) : M unit :=
  try_catch
    ((if has_body req then ret tt else throw TypeError);;
     res_cookie (lit "uploadMessage") (lit "Your file was uploaded successfully!") 3000;;
     f <- match file req with
          | Some f => ret f
          | None => throw TypeError          (* file.originalname *)
          end;;
     let fileExtension := extname (originalname f) in
     match getMimeType fileExtension with
     | None => res_send invalid_type_page
     | Some mimeType => upload_classified req f fileExtension mimeType env
     end)
    upload_failed.

End Upload.

(** ** [POST /register] (lines 354-585) *)

Definition accountActivationEmail (email activationUrl : value) : mail :=
  {| subject := lit "Account Activation";
     body_contentType := lit "Text";
     body_content :=
       lit "Click the following link to activate your account:" ++ newline
       ++ to_string activationUrl;
     toRecipient := email;
     sender := lit "[REDACTED]";
     saveToSentItems := lit "true" |}.

Definition newCustomerEmail (companyName customerId : value) : mail :=
  {| subject := lit "New customer: " ++ to_string companyName;
     body_contentType := lit "html";
     body_content :=
       to_string companyName ++ lit " has created an account!" ++ newline
       ++ lit "<a href=" ++ quote
       ++ lit "https://[REDACTED].myshopify.com/admin/customers/" ++ to_string customerId
       ++ quote ++ lit ">Click here to view the customer</a>.";
     toRecipient := VString (lit "rjarmon@gmail.com");
     sender := lit "[REDACTED]";
     saveToSentItems := lit "true" |}.

(** Evaluating the object literals of lines 515-559: the template
    literals convert [activationUrl], [companyName] and [customerId] to
    text, and throw when one of them has none. *)
Definition accountActivationEmail_literal (email activationUrl : value)
  : completion mail :=
  (_ <- ToString activationUrl;;
   Normal (accountActivationEmail email activationUrl))%completion.

Definition newCustomerEmail_literal (companyName customerId : value)
  : completion mail :=
  (_ <- ToString companyName;;
   _ <- ToString customerId;;
   Normal (newCustomerEmail companyName customerId))%completion.

Definition info_metafield (key type : string) (v : value) : metafield :=
  {| mf_key := lit key;
     mf_namespace := lit "customer-info";
     mf_type := lit type;
     mf_value := v |}.

(** [createCustomerVariables.input] after lines 426-464: the
    [company_website] metafield is pushed only when [website] is non-empty
    and passes [urlRegex]. *)
Definition createCustomerVariables (req : register_request)
    (website : jsstring) (phone : value) : customer_input :=
  {| in_email := email req;
     in_phone := phone;
     in_firstName := firstName req;
     in_lastName := lastName req;
     in_addresses :=
       [ {| addr_company := companyName req;
            addr_firstName := firstName req;
            addr_lastName := lastName req;
            addr_phone := phone |} ];
     in_metafields :=
       [ info_metafield "company" "single_line_text_field" (companyName req);
         info_metafield "phone_number" "single_line_text_field" phone ]
       ++ (if truthy (VString website) && urlRegex_test website
           then [ info_metafield "company_website" "url" (VString website) ]
           else []) |}.

(** The [catch] block of the registration handler (lines 581-584). *)
Definition register_failed (error : error) : M unit :=
  console "Error processing customer registration:" (LogError error);;
  res_status_send 500 (lit "Internal Server Error").

(** Lines 481-580: read the id of the created customer; with an id,
    generate the activation URL, build the two messages and send them
    under their own [try], without one, log the user errors; redirect in
    both cases. *)
Definition register_with_reply (req : register_request)
    (createCustomerQueryResult : value) (env : register_env) : M unit :=
  created <- lift (get_path createCustomerQueryResult
                     [Key "data"; Key "data"; Key "customerCreate"]);;
  customer <- lift (get created "customer");;
  customerId <- (if truthy customer then lift (get customer "id") else ret VNull);;
  (if truthy customerId then
     generateAccountActivationQueryResult <-
       axios_post_shopify
         (customerGenerateAccountActivationUrl customerId)
         (activation_reply env);;
     activationUrl <- lift (get_path generateAccountActivationQueryResult
                              [Key "data"; Key "data";
                               Key "customerGenerateAccountActivationUrl";
                               Key "accountActivationUrl"]);;
     accountActivationEmail <-
       lift (accountActivationEmail_literal (email req) activationUrl);;
     newCustomerEmail <-
       lift (newCustomerEmail_literal (companyName req) customerId);;
     try_catch
       (graph_sendMail accountActivationEmail (activation_mail_reply env);;
        graph_sendMail newCustomerEmail (staff_mail_reply env);;
        console "Emails sent successfully." LogNothing)
       (fun error => console "Error sending activation email:" (LogError error))
   else
     userErrors <- lift (get created "userErrors");;
     console "Error creating customer:" (LogValue userErrors));;
  res_redirect success_url.

(** Lines 386-580: the body of the [try] after [const phone = ...]. *)
Definition register_from_phone (req : register_request) (website : jsstring)
    (phone : value) (env : register_env) : M unit :=
  createCustomerQueryResult <-
    axios_post_shopify
      (customerCreate (createCustomerVariables req website phone))
      (customer_reply env);;
  register_with_reply req createCustomerQueryResult env.

(** The handler of [app.post('/register', ...)]. [companyWebsite.startsWith]
    exists only on a string. [convertToE164] is called on the object literal
    [{ phoneNumber }] (line 384). *)
Definition register_handler (req : register_request) (env : register_env) : M unit :=
  try_catch
    (website <- match companyWebsite req with
                | VString s => ret (normalizeWebsite s)
                | VUndefined | VNull | VArray _ | VObject _ | VNullProto _ =>
                    throw TypeError
                end;;
     phone <- lift (convertToE164 (VObject [(lit "phoneNumber", phoneNumber req)]));;
     register_from_phone req website phone env)
    register_failed.

(** ** The words of the specification, for comparison with the code *)

(** [normalizePhone] as the specification describes it: strip what is not
    a digit, then decide on the number of digits. [None] is null. *)
Definition normalizePhone (raw : jsstring) : option jsstring :=
  let digits := filter is_digit raw in
  match List.length digits with
  | 10%nat => Some (lit "+1" ++ digits)
  | 11%nat =>
      match digits with
      | 49 :: _ => Some (lit "+" ++ digits)
      | _ => None
      end
  | _ => None
  end.

Definition option_value (o : option jsstring) : value :=
  match o with
  | Some s => VString s
  | None => VNull
  end.

(** What the regular-expression class [\s] matches: the white space and
    line terminator code units of ECMAScript. *)
Definition is_whitespace (c : code_unit) : bool :=
  ((9 <=? c) && (c <=? 13)) || (c =? 32) || (c =? 160) || (c =? 5760)
  || ((8192 <=? c) && (c <=? 8202)) || (c =? 8232) || (c =? 8233)
  || (c =? 8239) || (c =? 8287) || (c =? 12288) || (c =? 65279).

(** The schemes [urlRegex] lists. *)
Definition schemes : list jsstring := [lit "ftp"; lit "http"; lit "https"].

(** [s] is a scheme of [urlRegex], a colon, two slashes and a non-empty
    rest. *)
Definition scheme_url (s : jsstring) : Prop :=
  exists scheme rest,
    In scheme schemes /\ s = scheme ++ lit "://" ++ rest /\ rest <> [].

(** [s] starts with one of the schemes of [urlRegex] and [://]. *)
Definition has_scheme_prefix (s : jsstring) : bool :=
  existsb (fun scheme => startsWith (scheme ++ lit "://") s) schemes.

(** [validateWebsite] as the specification describes it: a scheme URL with
    no white space and no double quote in it. *)
Definition validateWebsite_spec (s : jsstring) : Prop :=
  scheme_url s /\ Forall (fun c => is_whitespace c = false /\ c <> 34) s.

(** [normalizeWebsite] as the specification describes it. *)
Definition normalizeWebsite_spec (raw : jsstring) : jsstring :=
  if has_scheme_prefix raw then raw else lit "http://" ++ raw.

(** A stand-in for [path.extname] on plain file names: the text from the
    last dot on, empty when there is no dot. *)
Fixpoint extname_simple (name : jsstring) : jsstring :=
  match name with
  | [] => []
  | c :: rest =>
      match extname_simple rest with
      | [] => if c =? 46 then c :: rest else []
      | ext => ext
      end
  end.

(** The events of an upload up to the post to the staged target. *)
Definition staging_events (req : upload_request) (fileExtension mimeType : jsstring)
    (url : value) (form : form_data) : list event :=
  [ Cookie (lit "uploadMessage") (lit "Your file was uploaded successfully!") 3000;
    ShopifyPost
      (stagedUploadsCreate
         (to_string (customerCompany req) ++ lit " Tax Exempt Form" ++ fileExtension)
         (lit "POST") mimeType (lit "FILE"));
    TargetPost url form ].

(** What is left of the upload handler once the post to the staged target
    is out: await it under its [catch], then create the file, all inside
    the handler's [try]. *)
Definition upload_from_transfer (req : upload_request) (mimeType : jsstring)
    (resourceUrl : value) (env : upload_env) : M unit :=
  try_catch
    (try_catch (body <- await (target_reply env);; ret (axios_response body))
       transfer_failed;;
     upload_create_file req mimeType resourceUrl env)
    upload_failed.

(** ** Observations on a trace *)

Definition is_target_post (e : event) : bool :=
  match e with
  | TargetPost _ _ => true
  | _ => false
  end.

Definition is_send_mail (e : event) : bool :=
  match e with
  | SendMail _ => true
  | _ => false
  end.

Definition is_customerCreate (e : event) : bool :=
  match e with
  | ShopifyPost (customerCreate _) => true
  | _ => false
  end.

(** The form a staged target asks for: its parameters as text fields, in
    their order, then the file. *)
Definition staged_form (fields : list (jsstring * jsstring)) (f : uploaded_file) : form_data :=
  map (fun nv => (fst nv, FormText (snd nv))) fields
  ++ [(lit "file", FormBuffer (buffer f))].

(** [p] is a parameter object with the string [name] and [value] of [nv]. *)
Definition is_parameter (p : value) (nv : jsstring * jsstring) : Prop :=
  get p "name" = Normal (VString (fst nv)) /\ get p "value" = Normal (VString (snd nv)).

Definition internal_server_error : response :=
  Send 500 (lit "Internal Server Error").

(** ** Sample requests and replies *)

Definition str (s : string) : value := VString (lit s).

(** A property of an object literal. *)
Definition prop (k : string) (v : value) : jsstring * value := (lit k, v).

Definition obj (props : list (jsstring * value)) : value := VObject props.

(** The registration of the end-to-end scenario. *)
Definition acme_request : register_request :=
  {| companyName := str "Acme";
     firstName := str "A";
     lastName := str "B";
     email := str "a@b.com";
     companyWebsite := str "acme.com";
     phoneNumber := str "5551234567" |}.

(** A customer creation that Shopify refuses: no customer, one user
    error. *)
Definition no_customer_body : value :=
  obj [ prop "data"
          (obj [ prop "customerCreate"
                   (obj [ prop "customer" VNull;
                          prop "userErrors"
                            (VArray
                               [ obj [ prop "field" (VArray [str "email"]);
                                       prop "message"
                                         (str "Email has already been taken") ] ]) ]) ]) ].

Definition env_no_customer : register_env :=
  {| customer_reply := Resolved no_customer_body;
     activation_reply := Rejected;
     activation_mail_reply := Rejected;
     staff_mail_reply := Rejected |}.

Definition pdf_file : uploaded_file :=
  {| originalname := lit "exempt.pdf"; buffer := [37; 80; 68; 70] |}.

Definition pdf_request : upload_request :=
  Body (str "42") (str "Acme") (Some pdf_file).

Definition gif_request : upload_request :=
  Body (str "42") (str "Acme")
    (Some {| originalname := lit "exempt.gif"; buffer := [71; 73; 70] |}).

Definition staged_parameters : list (jsstring * jsstring) :=
  [ (lit "key", lit "tmp/exempt.pdf");
    (lit "policy", lit "eyJ");
    (lit "x-goog-signature", lit "ab12") ].

(** A parameter of a staged target as Shopify returns it. *)
Definition parameter_object (nv : jsstring * jsstring) : value :=
  obj [ prop "name" (VString (fst nv)); prop "value" (VString (snd nv)) ].

Definition staged_target : value :=
  obj [ prop "resourceUrl" (str "https://storage.example/tmp/exempt.pdf");
        prop "url" (str "https://storage.example/");
        prop "parameters" (VArray (map parameter_object staged_parameters)) ].

Definition staged_body : value :=
  obj [ prop "data"
          (obj [ prop "stagedUploadsCreate"
                   (obj [ prop "stagedTargets" (VArray [staged_target]);
                          prop "userErrors" (VArray []) ]) ]) ].

Definition file_body : value :=
  obj [ prop "data"
          (obj [ prop "fileCreate"
                   (obj [ prop "files"
                            (VArray
                               [ obj [ prop "fileStatus" (str "UPLOADED");
                                       prop "id" (str "gid://shopify/GenericFile/7") ] ]);
                          prop "userErrors" (VArray []) ]) ]) ].

Definition metafield_body : value :=
  obj [ prop "data"
          (obj [ prop "metafieldsSet" (obj [ prop "userErrors" (VArray []) ]) ]) ].

Definition env_all_ok : upload_env :=
  {| staged_reply := Resolved staged_body;
     target_reply := Resolved (VString []);
     file_reply := Resolved file_body;
     metafield_reply := Resolved metafield_body;
     mail_reply := Resolved tt |}.

(** Every step answers, but the transfer to the staged target fails. *)
Definition env_transfer_fails : upload_env :=
  {| staged_reply := Resolved staged_body;
     target_reply := Rejected;
     file_reply := Resolved file_body;
     metafield_reply := Resolved metafield_body;
     mail_reply := Resolved tt |}.

(** Every step through the metafield link answers, the mail send fails. *)
Definition env_mail_fails : upload_env :=
  {| staged_reply := Resolved staged_body;
     target_reply := Resolved (VString []);
     file_reply := Resolved file_body;
     metafield_reply := Resolved metafield_body;
     mail_reply := Rejected |}.

(** ** The steps of the handlers, as the replies decide them *)

(** [e] spells the lower-case word [w] up to the case of its letters A-Z. *)
Definition same_ignoring_case (e w : jsstring) : Prop :=
  Forall2 (fun c l => c = l \/ (65 <= c /\ c <= 90 /\ l = c + 32)) e w.

(** The remote calls of the two handlers, by kind. *)
Inductive call_kind : Type :=
| StagingCall
| TransferCall
| FileCall
| MetafieldCall
| CustomerCall
| ActivationCall
| MailCall.

Definition call_of (e : event) : option call_kind :=
  match e with
  | ShopifyPost (stagedUploadsCreate _ _ _ _) => Some StagingCall
  | TargetPost _ _ => Some TransferCall
  | ShopifyPost (fileCreate _ _) => Some FileCall
  | ShopifyPost (metafieldsSet _ _ _ _ _) => Some MetafieldCall
  | ShopifyPost (customerCreate _) => Some CustomerCall
  | ShopifyPost (customerGenerateAccountActivationUrl _) => Some ActivationCall
  | SendMail _ => Some MailCall
  | Cookie _ _ _ | Console _ _ | Respond _ => None
  end.

(** The remote calls of a trace, in order. *)
Fixpoint calls (t : list event) : list call_kind :=
  match t with
  | [] => []
  | e :: rest =>
      match call_of e with
      | Some k => k :: calls rest
      | None => calls rest
      end
  end.

(** The chain of an upload: stage, transfer, create the file, link it,
    notify. *)
Definition upload_chain : list call_kind :=
  [StagingCall; TransferCall; FileCall; MetafieldCall; MailCall].

(** The message of the [else] branch of line 338. *)
Definition is_upload_error_log (e : event) : bool :=
  match e with
  | Console msg _ => jsstring_eqb msg (lit "There was an error uploading the document")
  | _ => false
  end.

(** What lines 160-178 make of the staging reply: the [parameters], [url]
    and [resourceUrl] of the first target, or what is thrown on the way. *)
Definition staged_target_result (env : upload_env) : completion (value * value * value) :=
  match staged_reply env with
  | Rejected => Throw RequestFailed
  | Resolved body => save_target_info (axios_response body)
  end.

(** What lines 160-195 make of the staging reply: the target's [url] and
    [resourceUrl] and the form built from its parameters, or what is
    thrown on the way. *)
Definition staging_result (env : upload_env) : completion (value * value * form_data) :=
  match staged_reply env with
  | Rejected => Throw RequestFailed
  | Resolved body =>
      (target <- save_target_info (axios_response body);;
       let '(params, url, resourceUrl) := target in
       form <- forEach_append params [];;
       Normal (url, resourceUrl, form))%completion
  end.

(** What lines 247-260 make of the file-creation reply: the id of the
    first file, or what is thrown on the way. *)
Definition file_id_result (env : upload_env) : completion value :=
  match file_reply env with
  | Rejected => Throw RequestFailed
  | Resolved body =>
      get_path (axios_response body)
        [Key "data"; Key "data"; Key "fileCreate"; Key "files"; Index0; Key "id"]
  end.

(** What lines 499-513 make of the activation reply: the activation URL,
    or what is thrown on the way. *)
Definition activation_url_result (env : register_env) : completion value :=
  match activation_reply env with
  | Rejected => Throw RequestFailed
  | Resolved body =>
      get_path (axios_response body)
        [Key "data"; Key "data"; Key "customerGenerateAccountActivationUrl";
         Key "accountActivationUrl"]
  end.

(** The events of an upload from the file creation to the metafield
    post. *)
Definition linking_events (req : upload_request) (mimeType : jsstring)
    (resourceUrl fileId : value) : list event :=
  [ ShopifyPost
      (fileCreate
         (if jsstring_eqb mimeType (lit "application/pdf") then lit "FILE" else lit "IMAGE")
         resourceUrl);
    ShopifyPost
      (metafieldsSet (lit "tax_exempt_form") (lit "tax_exempt_forms")
         (lit "gid://shopify/Customer/" ++ to_string (customerId req))
         (lit "file_reference") fileId) ].

(** ** More sample requests and replies *)

(** An upload without the file field. *)
Definition no_file_request : upload_request :=
  Body (str "42") (str "Acme") None.

(** An upload whose form carried the file only. *)
Definition bare_request : upload_request :=
  Body VUndefined VUndefined (Some pdf_file).

(** An upload whose form named the company [customerCompany[name]]: multer
    makes the field an object that inherits nothing. *)
Definition nested_request : upload_request :=
  Body (str "42") (VNullProto [(lit "name", str "Acme")]) (Some pdf_file).

(** Shopify refuses the staged upload: user errors and no target. *)
Definition no_target_body : value :=
  obj [ prop "data"
          (obj [ prop "stagedUploadsCreate"
                   (obj [ prop "stagedTargets" (VArray []);
                          prop "userErrors"
                            (VArray [ obj [ prop "message" (str "Invalid file") ] ]) ]) ]) ].

Definition env_no_target : upload_env :=
  {| staged_reply := Resolved no_target_body;
     target_reply := Rejected;
     file_reply := Rejected;
     metafield_reply := Rejected;
     mail_reply := Rejected |}.

(** Shopify refuses the file creation: user errors and no file. *)
Definition no_file_body : value :=
  obj [ prop "data"
          (obj [ prop "fileCreate"
                   (obj [ prop "files" (VArray []);
                          prop "userErrors"
                            (VArray [ obj [ prop "message" (str "Invalid source") ] ]) ]) ]) ].

Definition env_no_file_created : upload_env :=
  {| staged_reply := Resolved staged_body;
     target_reply := Resolved (VString []);
     file_reply := Resolved no_file_body;
     metafield_reply := Resolved metafield_body;
     mail_reply := Resolved tt |}.


(** A customer creation that succeeds. *)
Definition customer_body : value :=
  obj [ prop "data"
          (obj [ prop "customerCreate"
                   (obj [ prop "customer"
                            (obj [ prop "id" (str "gid://shopify/Customer/9");
                                   prop "email" (str "a@b.com") ]);
                          prop "userErrors" (VArray []) ]) ]) ].

Definition activation_body : value :=
  obj [ prop "data"
          (obj [ prop "customerGenerateAccountActivationUrl"
                   (obj [ prop "accountActivationUrl"
                            (str "https://shop.example/account/activate/9/abc");
                          prop "userErrors" (VArray []) ]) ]) ].

(** The customer is created, the activation mail cannot be sent. *)
Definition env_activation_mail_fails : register_env :=
  {| customer_reply := Resolved customer_body;
     activation_reply := Resolved activation_body;
     activation_mail_reply := Rejected;
     staff_mail_reply := Resolved tt |}.

(** The customer is created, the activation URL cannot be generated. *)
Definition env_activation_fails : register_env :=
  {| customer_reply := Resolved customer_body;
     activation_reply := Rejected;
     activation_mail_reply := Resolved tt;
     staff_mail_reply := Resolved tt |}.

(** A registration posted as JSON whose company name is an object with a
    [toString] key of its own. *)
Definition shadowed_request : register_request :=
  {| companyName := obj [ prop "toString" (str "x") ];
     firstName := str "A";
     lastName := str "B";
     email := str "a@b.com";
     companyWebsite := str "acme.com";
     phoneNumber := str "5551234567" |}.

(** * Properties *)

(** ** Strings *)

Lemma startsWith_app (p s : jsstring) :
  startsWith p s = true <-> exists rest, s = p ++ rest.
Proof.
  revert s; induction p as [|x p IH]; intros s; simpl.
  - split; [intros _; now exists s | reflexivity].
  - destruct s as [|y s].
    + split; [discriminate | intros [rest H]; discriminate].
    + rewrite andb_true_iff, N.eqb_eq, IH. split.
      * intros [-> [rest ->]]. now exists rest.
      * intros [rest H]. injection H as -> ->. split; [reflexivity | now exists rest].
Qed.

(** ** The regular-expression matcher decides the language *)
Module RegexFacts.
Import Regex.

Lemma mem_In c cs : mem c cs = true <-> In c cs.
Proof.
  unfold mem. rewrite existsb_exists. split.
  - intros [x [Hin Heq]]. apply N.eqb_eq in Heq. now subst.
  - intros Hin. exists c. split; [assumption | apply N.eqb_refl].
Qed.

Lemma nullable_lang r : nullable r = true <-> lang r [].
Proof.
  induction r; simpl.
  - split; [discriminate | intros H; inversion H].
  - split; [constructor | reflexivity].
  - split; [discriminate | intros H; inversion H].
  - split; [discriminate | intros H; inversion H].
  - rewrite andb_true_iff, IHr1, IHr2. split.
    + intros [H1 H2]. change (@nil code_unit) with (@nil code_unit ++ []).
      now constructor.
    + intros H. inversion H.
      match goal with E : _ ++ _ = [] |- _ => apply app_eq_nil in E as [-> ->] end.
      now split.
  - rewrite orb_true_iff, IHr1, IHr2. split.
    + intros [H|H]; [now apply lang_alt_l | now apply lang_alt_r].
    + intros H. inversion H; subst; auto.
  - split; [constructor | reflexivity].
Qed.

Lemma deriv_sound c r : forall s, lang (deriv c r) s -> lang r (c :: s).
Proof.
  induction r; simpl; intros s H.
  - inversion H.
  - inversion H.
  - destruct (N.eqb_spec c c0); inversion H; subst. constructor.
  - destruct (mem c cs) eqn:E; inversion H; subst. constructor.
    intros Hin. apply mem_In in Hin. congruence.
  - assert (Hcat : forall s', lang (Cat (deriv c r1) r2) s' -> lang (Cat r1 r2) (c :: s')).
    { intros s' H'. inversion H'; subst.
      change (c :: s1 ++ s2) with ((c :: s1) ++ s2). constructor; auto. }
    destruct (nullable r1) eqn:E; [| now apply Hcat].
    inversion H; subst; [now apply Hcat |].
    change (c :: s) with ([] ++ c :: s). constructor; [| auto].
    now apply nullable_lang.
  - inversion H; subst; [apply lang_alt_l | apply lang_alt_r]; auto.
  - inversion H; subst.
    change (c :: s1 ++ s2) with ((c :: s1) ++ s2). apply lang_star_cons; auto.
Qed.

Lemma deriv_complete c r s0 :
  lang r s0 -> forall s, s0 = c :: s -> lang (deriv c r) s.
Proof.
  induction 1 as [ | c0 | cs c0 Hn | r1 r2 s1 s2 L1 IH1 L2 IH2
                 | r1 r2 s0 L IH | r1 r2 s0 L IH | r | r s1 s2 L1 IH1 L2 IH2 ];
    intros s E; simpl.
  - discriminate.
  - injection E as -> <-. rewrite N.eqb_refl. constructor.
  - injection E as -> <-. destruct (mem c cs) eqn:Em.
    + apply mem_In in Em. contradiction.
    + constructor.
  - destruct s1 as [|x s1]; simpl in E.
    + subst s2. apply nullable_lang in L1. rewrite L1.
      apply lang_alt_r. now apply IH2.
    + injection E as -> <-.
      assert (lang (Cat (deriv c r1) r2) (s1 ++ s2))
        by (constructor; [now apply IH1 | assumption]).
      destruct (nullable r1); [now apply lang_alt_l | assumption].
  - apply lang_alt_l. now apply IH.
  - apply lang_alt_r. now apply IH.
  - discriminate.
  - destruct s1 as [|x s1]; simpl in E.
    + now apply IH2.
    + injection E as -> <-. constructor; [now apply IH1 | assumption].
Qed.

Lemma matches_lang r s : matches r s = true <-> lang r s.
Proof.
  revert r; induction s as [|c s IH]; intros r; simpl.
  - apply nullable_lang.
  - rewrite IH. split; [apply deriv_sound | intros H; now apply (deriv_complete c r (c :: s))].
Qed.

Lemma lang_Str p s : lang (Str p) s <-> s = p.
Proof.
  revert s; induction p as [|c p IH]; intros s; simpl; split; intros H.
  - now inversion H.
  - subst. constructor.
  - inversion H as [| | |? ? s1 s2 L1 L2 E| | | |]; subst.
    inversion L1; subst. apply IH in L2. now subst.
  - subst. change (c :: p) with ([c] ++ p). constructor; [constructor | now apply IH].
Qed.

Lemma lang_Star_NoneOf cs s :
  lang (Star (NoneOf cs)) s <-> Forall (fun c => ~ In c cs) s.
Proof.
  split.
  - intros H. remember (Star (NoneOf cs)) as r eqn:Er.
    induction H; try discriminate.
    + constructor.
    + injection Er as ->. inversion H; subst. simpl. constructor; auto.
  - induction 1 as [|c s Hc _ IH].
    + constructor.
    + change (c :: s) with ([c] ++ s). apply lang_star_cons; [now constructor | assumption].
Qed.

Lemma lang_Plus_NoneOf cs s :
  lang (Plus (NoneOf cs)) s <-> s <> [] /\ Forall (fun c => ~ In c cs) s.
Proof.
  unfold Plus. split.
  - intros H. inversion H as [| | |? ? s1 s2 L1 L2 E| | | |]; subst.
    inversion L1; subst. apply lang_Star_NoneOf in L2. simpl.
    split; [discriminate | constructor; auto].
  - intros [Hne Hall]. destruct s as [|c s]; [congruence |].
    inversion Hall; subst.
    change (c :: s) with ([c] ++ s). constructor; [now constructor | now apply lang_Star_NoneOf].
Qed.

End RegexFacts.

(** ** [urlRegex] *)

Lemma schemes_clean scheme :
  In scheme schemes -> Forall (fun c => c <> 32 /\ c <> 34) (scheme ++ lit "://").
Proof.
  intros [<- | [<- | [<- | []]]]; repeat constructor; discriminate.
Qed.

Lemma urlRegex_lang s :
  Regex.lang urlRegex s <->
  exists scheme rest,
    In scheme schemes /\ s = scheme ++ lit "://" ++ rest /\ rest <> []
    /\ Forall (fun c => ~ In c [32; 34]) rest.
Proof.
  unfold urlRegex. split.
  - intros H. inversion H as [| | |? ? s1 s2 Lscheme Ltail| | | |]; subst.
    inversion Ltail as [| | |? ? s3 s4 Lsep Lrest| | | |]; subst.
    apply (RegexFacts.lang_Str (lit "://")) in Lsep.
    apply RegexFacts.lang_Plus_NoneOf in Lrest.
    destruct Lrest as [Hne Hall]. subst s3.
    exists s1, s4. repeat split; try assumption.
    inversion Lscheme as [| | | |? ? ? L|? ? ? L| |]; subst.
    + apply (RegexFacts.lang_Str (lit "ftp")) in L. subst. simpl. auto.
    + inversion L as [| | | |? ? ? L'|? ? ? L'| |]; subst.
      * apply (RegexFacts.lang_Str (lit "http")) in L'. subst. simpl. auto.
      * apply (RegexFacts.lang_Str (lit "https")) in L'. subst. simpl. auto.
  - intros (scheme & rest & Hin & -> & Hne & Hall).
    constructor.
    + destruct Hin as [<- | [<- | [<- | []]]].
      * apply Regex.lang_alt_l. now apply RegexFacts.lang_Str.
      * apply Regex.lang_alt_r, Regex.lang_alt_l. now apply RegexFacts.lang_Str.
      * apply Regex.lang_alt_r, Regex.lang_alt_r. now apply RegexFacts.lang_Str.
    + constructor; [now apply RegexFacts.lang_Str | now apply RegexFacts.lang_Plus_NoneOf].
Qed.

Lemma not_in_space_quote (c : code_unit) : ~ In c [32; 34] <-> c <> 32 /\ c <> 34.
Proof.
  simpl. split.
  - intros H. split; intros ->; apply H; auto.
  - intros [H1 H2] [E | [E | []]]; congruence.
Qed.

Lemma urlRegex_test_spec s :
  urlRegex_test s = true <-> scheme_url s /\ Forall (fun c => c <> 32 /\ c <> 34) s.
Proof.
  unfold urlRegex_test. rewrite RegexFacts.matches_lang, urlRegex_lang. split.
  - intros (scheme & rest & Hin & -> & Hne & Hall). split.
    + now exists scheme, rest.
    + rewrite app_assoc. apply Forall_app. split; [now apply schemes_clean |].
      eapply Forall_impl; [| exact Hall]. intros c. apply not_in_space_quote.
  - intros [(scheme & rest & Hin & -> & Hne) Hall].
    exists scheme, rest. repeat split; try assumption.
    rewrite app_assoc in Hall. apply Forall_app in Hall as [_ Hall].
    eapply Forall_impl; [| exact Hall]. intros c. apply not_in_space_quote.
Qed.

Lemma scheme_url_prefix s : scheme_url s -> has_scheme_prefix s = true.
Proof.
  intros (scheme & rest & Hin & -> & _). unfold has_scheme_prefix.
  apply existsb_exists. exists scheme. split; [assumption |].
  apply startsWith_app. exists rest. now rewrite app_assoc.
Qed.

(** C6, as the code has it: [urlRegex.test] accepts exactly the strings
    made of one of the schemes ftp, http, https, then [://], then a
    non-empty rest, in which no code unit is the space U+0020 or the double
    quote U+0022. So every string with a space or a double quote in it is
    rejected, and so is every string that does not start with one of the
    three schemes and [://]. Other white space (a tab, a line feed) is
    accepted. *)
Theorem urlRegex_accepts_exactly (s : jsstring) :
  (urlRegex_test s = true <-> scheme_url s /\ Forall (fun c => c <> 32 /\ c <> 34) s)
  /\ (In 32 s \/ In 34 s -> urlRegex_test s = false)
  /\ (has_scheme_prefix s = false -> urlRegex_test s = false)
  /\ urlRegex_test (lit "http://a" ++ [9] ++ lit "b") = true.
Proof.
  split; [apply urlRegex_test_spec |]. split; [| split].
  - intros Hin. apply not_true_is_false. intros Ht.
    apply urlRegex_test_spec in Ht as [_ Hall]. rewrite Forall_forall in Hall.
    destruct Hin as [Hin | Hin]; apply Hall in Hin; destruct Hin; congruence.
  - intros Hp. apply not_true_is_false. intros Ht.
    apply urlRegex_test_spec in Ht as [Hs _]. apply scheme_url_prefix in Hs. congruence.
  - reflexivity.
Qed.

(** C6 as stated fails: a URL with a tab in it contains white space, and
    [urlRegex] accepts it. *)
Lemma urlRegex_accepts_tab :
  urlRegex_test (lit "http://a" ++ [9] ++ lit "b") = true
  /\ is_whitespace 9 = true
  /\ In 9 (lit "http://a" ++ [9] ++ lit "b")
  /\ ~ (urlRegex_test (lit "http://a" ++ [9] ++ lit "b") = true
        <-> validateWebsite_spec (lit "http://a" ++ [9] ++ lit "b")).
Proof.
  split; [reflexivity |]. split; [reflexivity |]. split; [simpl; tauto |].
  intros [Hacc _]. destruct (Hacc eq_refl) as [_ Hall].
  rewrite Forall_forall in Hall.
  assert (Hin : In 9 (lit "http://a" ++ [9] ++ lit "b")) by (simpl; tauto).
  apply Hall in Hin as [Hws _]. discriminate.
Qed.

(** ** [convertToE164] *)

Lemma strip_non_digits_digits s : Forall (fun c => is_digit c = true) (strip_non_digits s).
Proof.
  unfold strip_non_digits. apply Forall_forall. intros c Hin.
  now apply filter_In in Hin.
Qed.

Lemma convertToE164_string s :
  convertToE164 (VString s) = Normal (option_value (normalizePhone s)).
Proof.
  unfold convertToE164, normalizePhone, strip_non_digits.
  generalize (filter is_digit s). intros d.
  change (lit "1") with [49].
  destruct (Nat.eq_dec (List.length d) 11) as [E11 | N11].
  - rewrite E11. simpl (N.of_nat 11 =? 11). rewrite andb_true_r.
    destruct d as [|c d]; [discriminate |]. simpl startsWith. rewrite andb_true_r.
    destruct c as [|p]; [reflexivity |].
    do 6 (try (destruct p as [p|p|]; try reflexivity)).
  - assert (F11 : (N.of_nat (List.length d) =? 11) = false)
      by (apply N.eqb_neq; lia).
    rewrite F11, andb_false_r.
    destruct (Nat.eq_dec (List.length d) 10) as [E10 | N10].
    + rewrite E10. reflexivity.
    + assert (F10 : (N.of_nat (List.length d) =? 10) = false)
        by (apply N.eqb_neq; lia).
      rewrite F10.
      remember (List.length d) as n eqn:En. clear En.
      do 12 (destruct n as [|n]; [try reflexivity; lia |]). reflexivity.
Qed.

(** C5: on every string, [convertToE164] strips what is not a digit and
    then returns [+] and the digits when there are 11 of them and the first
    is 1, [+1] and the digits when there are exactly 10, and null in every
    other case (11 digits that do not start with 1 included), which is
    [normalizePhone] of the specification. 555-123-4567 and 15551234567 both
    give +15551234567, and 123 gives null. *)
Theorem convertToE164_normalizes (s : jsstring) :
  convertToE164 (VString s) = Normal (option_value (normalizePhone s))
  /\ Forall (fun c => is_digit c = true) (strip_non_digits s)
  /\ convertToE164 (VString (lit "555-123-4567")) = Normal (VString (lit "+15551234567"))
  /\ convertToE164 (VString (lit "15551234567")) = Normal (VString (lit "+15551234567"))
  /\ convertToE164 (VString (lit "123")) = Normal VNull.
Proof.
  split; [apply convertToE164_string |].
  split; [apply strip_non_digits_digits |]. repeat split; reflexivity.
Qed.

(** ** The website normalisation of [/register] *)

Lemma has_scheme_prefix_cases s :
  has_scheme_prefix s
  = startsWith (lit "ftp://") s || startsWith (lit "http://") s
    || startsWith (lit "https://") s.
Proof.
  unfold has_scheme_prefix, schemes. simpl existsb. rewrite orb_false_r, orb_assoc.
  reflexivity.
Qed.

Lemma ftp_not_http s :
  startsWith (lit "ftp://") s = true ->
  startsWith (lit "http://") s = false /\ startsWith (lit "https://") s = false.
Proof.
  intros H. apply startsWith_app in H as [rest ->]. split; reflexivity.
Qed.

Lemma prepend_changes (p s : jsstring) : p <> [] -> p ++ s <> s.
Proof.
  intros Hp E. apply (f_equal (@List.length _)) in E. rewrite length_app in E.
  destruct p; [congruence | simpl in E; lia].
Qed.

(** C7, as the code has it: the string is returned unchanged when it
    starts with [http://] or with [https://], and with [http://] prepended
    otherwise; example.com becomes http://example.com and
    https://example.com is unchanged. The result agrees with "unchanged when
    it already has a scheme prefix" except on the strings that start with
    [ftp://], the third scheme [urlRegex] knows. *)
Theorem normalizeWebsite_http_only (s : jsstring) :
  normalizeWebsite s
  = (if startsWith (lit "http://") s || startsWith (lit "https://") s
     then s else lit "http://" ++ s)
  /\ (normalizeWebsite s = normalizeWebsite_spec s
      <-> startsWith (lit "ftp://") s = false)
  /\ normalizeWebsite (lit "example.com") = lit "http://example.com"
  /\ normalizeWebsite (lit "https://example.com") = lit "https://example.com".
Proof.
  split; [| split; [| split; reflexivity]].
  - unfold normalizeWebsite.
    destruct (startsWith (lit "http://") s), (startsWith (lit "https://") s); reflexivity.
  - unfold normalizeWebsite, normalizeWebsite_spec. rewrite has_scheme_prefix_cases.
    destruct (startsWith (lit "ftp://") s) eqn:Eftp.
    + destruct (ftp_not_http s Eftp) as [-> ->]. simpl. split; [| discriminate].
      intros E. exfalso. apply (prepend_changes (lit "http://") s); [discriminate | exact E].
    + destruct (startsWith (lit "http://") s), (startsWith (lit "https://") s);
        simpl; split; reflexivity.
Qed.

(** C7 as stated fails: ftp://example.com already has a scheme prefix, and
    the code prepends [http://] to it. *)
Lemma normalizeWebsite_ftp_prefixed :
  has_scheme_prefix (lit "ftp://example.com") = true
  /\ normalizeWebsite (lit "ftp://example.com") = lit "http://ftp://example.com"
  /\ normalizeWebsite (lit "ftp://example.com") <> lit "ftp://example.com"
  /\ normalizeWebsite (lit "ftp://example.com") <> normalizeWebsite_spec (lit "ftp://example.com").
Proof.
  repeat split; try reflexivity; discriminate.
Qed.

(** ** Traces only grow, and by what a handler emits *)

Section EmitsOnly.

Variable P : event -> Prop.

Lemma emits_only_ret {A} (a : A) : emits_only P (ret a).
Proof. intros t. exists []. now rewrite app_nil_r. Qed.

Lemma emits_only_throw {A} (e : error) : emits_only P (@throw A e).
Proof. intros t. exists []. now rewrite app_nil_r. Qed.

Lemma emits_only_emit (e : event) : P e -> emits_only P (emit e).
Proof. intros He t. exists [e]. split; [reflexivity | now constructor]. Qed.

Lemma emits_only_bind {A B} (m : M A) (k : A -> M B) :
  emits_only P m -> (forall a, emits_only P (k a)) -> emits_only P (bind m k).
Proof.
  intros Hm Hk t. unfold bind. destruct (Hm t) as (t1 & E1 & F1).
  destruct (m t) as [[a | e] t0]; simpl in E1; subst t0.
  - destruct (Hk a (t ++ t1)) as (t2 & E2 & F2).
    exists (t1 ++ t2). rewrite E2, app_assoc. split; [reflexivity | now apply Forall_app].
  - now exists t1.
Qed.

Lemma emits_only_try_catch {A} (body : M A) (handler : error -> M A) :
  emits_only P body -> (forall e, emits_only P (handler e)) ->
  emits_only P (try_catch body handler).
Proof.
  intros Hm Hk t. unfold try_catch. destruct (Hm t) as (t1 & E1 & F1).
  destruct (body t) as [[a | e] t0]; simpl in E1; subst t0.
  - now exists t1.
  - destruct (Hk e (t ++ t1)) as (t2 & E2 & F2).
    exists (t1 ++ t2). rewrite E2, app_assoc. split; [reflexivity | now apply Forall_app].
Qed.

Lemma emits_only_lift {A} (c : completion A) : emits_only P (lift c).
Proof. destruct c; [apply emits_only_ret | apply emits_only_throw]. Qed.

Lemma emits_only_await {A} (o : outcome A) : emits_only P (await o).
Proof. destruct o; [apply emits_only_ret | apply emits_only_throw]. Qed.

Lemma emits_only_res_commit (r : response) : P (Respond r) -> emits_only P (res_commit r).
Proof.
  intros Hr t. unfold res_commit. destruct (headers_sent t).
  - exists []. now rewrite app_nil_r.
  - exists [Respond r]. split; [reflexivity | now constructor].
Qed.

Lemma emits_only_axios_post_shopify m reply :
  P (ShopifyPost m) -> emits_only P (axios_post_shopify m reply).
Proof.
  intros Hm. unfold axios_post_shopify.
  apply emits_only_bind; [now apply emits_only_emit | intros _].
  apply emits_only_bind; [apply emits_only_await | intros body; apply emits_only_ret].
Qed.

Hypothesis P_mail : forall m, P (SendMail m).
Hypothesis P_console : forall msg what, P (Console msg what).
Hypothesis P_respond : forall r, P (Respond r).

Lemma emits_only_graph_sendMail m reply : emits_only P (graph_sendMail m reply).
Proof.
  unfold graph_sendMail.
  apply emits_only_bind; [now apply emits_only_emit | intros _; apply emits_only_await].
Qed.

Lemma emits_only_console msg what : emits_only P (console msg what).
Proof. now apply emits_only_emit. Qed.

Lemma emits_only_fail_500 {A} msg what (a : A) :
  emits_only P (console msg what;; res_status_send 500 (lit "Internal Server Error");; ret a).
Proof.
  apply emits_only_bind; [apply emits_only_console | intros _].
  apply emits_only_bind; [now apply emits_only_res_commit | intros _; apply emits_only_ret].
Qed.

Lemma emits_only_failed msg what :
  emits_only P (console msg what;; res_status_send 500 (lit "Internal Server Error")).
Proof.
  apply emits_only_bind; [apply emits_only_console | intros _].
  now apply emits_only_res_commit.
Qed.

(** The registration handler once the customer creation has answered:
    of the mutations, only the activation URL. *)
Lemma emits_only_register_with_reply req r env :
  (forall c, P (ShopifyPost (customerGenerateAccountActivationUrl c))) ->
  emits_only P (register_with_reply req r env).
Proof.
  intros P_activation. unfold register_with_reply.
  apply emits_only_bind; [apply emits_only_lift | intros created].
  apply emits_only_bind; [apply emits_only_lift | intros customer].
  apply emits_only_bind.
  { destruct (truthy customer); [apply emits_only_lift | apply emits_only_ret]. }
  intros cid. apply emits_only_bind; [| intros _; now apply emits_only_res_commit].
  destruct (truthy cid).
  - apply emits_only_bind; [now apply emits_only_axios_post_shopify | intros r'].
    apply emits_only_bind; [apply emits_only_lift | intros activationUrl].
    apply emits_only_bind; [apply emits_only_lift | intros m1].
    apply emits_only_bind; [apply emits_only_lift | intros m2].
    apply emits_only_try_catch; [| intros e; apply emits_only_console].
    apply emits_only_bind; [apply emits_only_graph_sendMail | intros _].
    apply emits_only_bind; [apply emits_only_graph_sendMail | intros _].
    apply emits_only_console.
  - apply emits_only_bind; [apply emits_only_lift | intros ue; apply emits_only_console].
Qed.

Hypothesis P_shopify : forall m, P (ShopifyPost m).

Lemma emits_only_upload_link_file req fileId env :
  emits_only P (upload_link_file req fileId env).
Proof.
  unfold upload_link_file.
  apply emits_only_bind; [apply emits_only_lift | intros customer].
  apply emits_only_bind.
  - apply emits_only_try_catch; [now apply emits_only_axios_post_shopify | intros e].
    apply emits_only_fail_500.
  - intros r'. destruct (truthy r').
    + apply emits_only_bind; [apply emits_only_lift | intros message].
      apply emits_only_bind; [apply emits_only_graph_sendMail | intros _].
      now apply emits_only_res_commit.
    + apply emits_only_bind; [apply emits_only_console | intros _].
      now apply emits_only_res_commit.
Qed.

(** After the transfer, the upload handler only posts to Shopify, sends
    mail, logs and responds. *)
Lemma emits_only_upload_create_file req mimeType resourceUrl env :
  emits_only P (upload_create_file req mimeType resourceUrl env).
Proof.
  unfold upload_create_file.
  apply emits_only_bind; [now apply emits_only_axios_post_shopify | intros r].
  apply emits_only_bind; [apply emits_only_lift | intros fileId].
  apply emits_only_upload_link_file.
Qed.

Lemma emits_only_upload_from_transfer req mimeType resourceUrl env :
  emits_only P (upload_from_transfer req mimeType resourceUrl env).
Proof.
  unfold upload_from_transfer.
  apply emits_only_try_catch; [| intros e; apply emits_only_failed].
  apply emits_only_bind; [| intros _; apply emits_only_upload_create_file].
  apply emits_only_try_catch; [| intros e; apply emits_only_fail_500].
  apply emits_only_bind; [apply emits_only_await | intros b; apply emits_only_ret].
Qed.

Hypothesis P_target : forall url form, P (TargetPost url form).

Lemma emits_only_upload_classified req f fileExtension mimeType env :
  emits_only P (upload_classified req f fileExtension mimeType env).
Proof.
  unfold upload_classified.
  apply emits_only_bind; [apply emits_only_lift | intros company].
  apply emits_only_bind; [now apply emits_only_axios_post_shopify | intros r].
  apply emits_only_bind; [apply emits_only_lift | intros [[params url] resourceUrl]].
  apply emits_only_bind; [apply emits_only_lift | intros form].
  apply emits_only_bind; [| intros _; apply emits_only_upload_create_file].
  apply emits_only_try_catch; [| intros e; apply emits_only_fail_500].
  unfold axios_post_form.
  apply emits_only_bind; [now apply emits_only_emit | intros _].
  apply emits_only_bind; [apply emits_only_await | intros b; apply emits_only_ret].
Qed.

End EmitsOnly.

(** ** Running the handlers *)

Ltac run_handler :=
  repeat (progress
    (cbv beta iota delta
       [bind try_catch ret throw lift await emit and_then
        axios_post_shopify axios_post_form graph_sendMail console
        res_commit res_send res_status_send res_redirect res_cookie
        transfer_failed metafield_failed upload_failed register_failed
        taxExemptDocumentUploadEmail_literal accountActivationEmail_literal
        newCustomerEmail_literal];
     cbn [app headers_sent existsb is_respond orb fst snd])).

Lemma append_params_fields params fields form :
  Forall2 is_parameter params fields ->
  append_params params form
  = Normal (form ++ map (fun nv => (fst nv, FormText (snd nv))) fields).
Proof.
  intros H. revert form.
  induction H as [| p nv params fields [Hn Hv] _ IH]; intros form; simpl.
  - now rewrite app_nil_r.
  - rewrite Hn, Hv. simpl. rewrite IH, <- app_assoc. reflexivity.
Qed.

Lemma ToString_to_string (v : value) (s : jsstring) :
  ToString v = Normal s -> to_string v = s.
Proof. intros H. unfold to_string. now rewrite H. Qed.

Lemma file_has_body (req : upload_request) (f : uploaded_file) :
  file req = Some f -> has_body req = true.
Proof. destruct req; [discriminate | reflexivity]. Qed.

Lemma upload_after_staging
    extname req env f mimeType company body params url resourceUrl form :
  file req = Some f ->
  getMimeType (extname (originalname f)) = Some mimeType ->
  ToString (customerCompany req) = Normal company ->
  staged_reply env = Resolved body ->
  save_target_info (axios_response body) = Normal (params, url, resourceUrl) ->
  forEach_append params [] = Normal form ->
  run (upload_handler extname req env)
  = upload_from_transfer req mimeType resourceUrl env
      (staging_events req (extname (originalname f)) mimeType url
         (form ++ [(lit "file", FormBuffer (buffer f))])).
Proof.
  intros Hf Hm Hc Hs Ht Hp.
  unfold run, upload_handler, upload_classified, upload_from_transfer, staging_events.
  rewrite (file_has_body _ _ Hf), Hf, (ToString_to_string _ _ Hc). run_handler.
  rewrite Hm. run_handler. rewrite Hc, Hs. run_handler. rewrite Ht. run_handler.
  rewrite Hp. run_handler. reflexivity.
Qed.

(** C8: when the extension classifies, the company has a text for the
    file name and the staging reply carries a target whose [parameters] is
    an array of name/value objects, the handler posts to the target's [url]
    exactly once, and the form it posts has the parameters as its fields in
    the order of the reply, followed by the file's bytes under [file] as the
    last field. *)
Theorem upload_form_order
    extname req env f mimeType company body params url resourceUrl fields :
  file req = Some f ->
  getMimeType (extname (originalname f)) = Some mimeType ->
  ToString (customerCompany req) = Normal company ->
  staged_reply env = Resolved body ->
  save_target_info (axios_response body) = Normal (VArray params, url, resourceUrl) ->
  Forall2 is_parameter params fields ->
  exists before after,
    trace_of (upload_handler extname req env)
    = before ++ TargetPost url (staged_form fields f) :: after
    /\ Forall (fun e => is_target_post e = false) before
    /\ Forall (fun e => is_target_post e = false) after.
Proof.
  intros Hf Hm Hc Hs Ht Hp.
  assert (Hform : forEach_append (VArray params) []
                  = Normal (map (fun nv => (fst nv, FormText (snd nv))) fields))
    by (simpl; now rewrite (append_params_fields _ _ _ Hp)).
  unfold trace_of.
  rewrite (upload_after_staging _ _ _ _ _ _ _ _ _ _ _ Hf Hm Hc Hs Ht Hform).
  destruct (emits_only_upload_from_transfer (fun e => is_target_post e = false))
    with (req := req) (mimeType := mimeType) (resourceUrl := resourceUrl) (env := env)
         (t := staging_events req (extname (originalname f)) mimeType url
                 (staged_form fields f))
    as (after & E & Hafter); try reflexivity.
  unfold staged_form in *. rewrite E.
  eexists [_; _], after. split; [reflexivity |]. split; [| assumption].
  repeat constructor.
Qed.

(** The PDF upload with every step answered: the three parameters of the
    staged target, in their order, then the file. *)
Lemma upload_form_order_example :
  exists before after,
    trace_of (upload_handler extname_simple pdf_request env_all_ok)
    = before
      ++ TargetPost (str "https://storage.example/")
           [ (lit "key", FormText (lit "tmp/exempt.pdf"));
             (lit "policy", FormText (lit "eyJ"));
             (lit "x-goog-signature", FormText (lit "ab12"));
             (lit "file", FormBuffer [37; 80; 68; 70]) ]
      :: after
    /\ Forall (fun e => is_target_post e = false) before
    /\ Forall (fun e => is_target_post e = false) after.
Proof.
  apply (upload_form_order extname_simple pdf_request env_all_ok pdf_file
           (lit "application/pdf") (lit "Acme") staged_body
           (map parameter_object staged_parameters)
           (str "https://storage.example/")
           (str "https://storage.example/tmp/exempt.pdf")
           staged_parameters).
  - reflexivity.
  - reflexivity.
  - reflexivity.
  - reflexivity.
  - reflexivity.
  - repeat constructor.
Defined.

Lemma cookie_first {A} (k : unit -> M A) (handler : error -> M A) name val maxAge :
  (forall u, emits_only (fun _ => True) (k u)) ->
  (forall e, emits_only (fun _ => True) (handler e)) ->
  exists rest,
    trace_of (try_catch (ret tt;; bind (res_cookie name val maxAge) k) handler)
    = Cookie name val maxAge :: rest.
Proof.
  intros Hk Hh. unfold trace_of, run, try_catch, bind, ret, res_cookie.
  cbn [headers_sent existsb app].
  destruct (Hk tt [Cookie name val maxAge]) as (t1 & E1 & _).
  destruct (k tt [Cookie name val maxAge]) as [[a | e] t']; simpl in E1; subst t'.
  - now exists t1.
  - destruct (Hh e (Cookie name val maxAge :: t1)) as (t2 & E2 & _).
    rewrite E2. now exists (t1 ++ t2).
Qed.

(** C9, as the code has it: on every request to [/upload] that has a
    body, as every multipart request has, whatever the file and whatever
    the remote replies (a missing file and an extension that does not
    classify included), the first thing the handler does is set the cookie
    [uploadMessage] to "Your file was uploaded successfully!" with maxAge
    3000: it precedes the file-type check, every remote call and the
    response. *)
Theorem upload_sets_cookie_first extname req env :
  has_body req = true ->
  exists rest,
    trace_of (upload_handler extname req env)
    = Cookie (lit "uploadMessage") (lit "Your file was uploaded successfully!") 3000
      :: rest.
Proof.
  intros Hb. unfold upload_handler. rewrite Hb. apply cookie_first.
  - intros _. apply emits_only_bind.
    + destruct (file req); [apply emits_only_ret | apply emits_only_throw].
    + intros f. destruct (getMimeType (extname (originalname f))).
      * now apply emits_only_upload_classified.
      * now apply emits_only_res_commit.
  - intros e. now apply emits_only_failed.
Qed.

(** A GIF upload, turned down for its file type, has the cookie set. *)
Lemma upload_sets_cookie_first_gif :
  exists rest,
    trace_of (upload_handler extname_simple gif_request env_all_ok)
    = Cookie (lit "uploadMessage") (lit "Your file was uploaded successfully!") 3000
      :: rest.
Proof.
  apply (upload_sets_cookie_first extname_simple gif_request env_all_ok). reflexivity.
Defined.

(** C9 as stated fails: on a request without a body the destructuring of
    line 103 throws before [res.cookie] is reached, and the answer is 500
    Internal Server Error with no cookie set. *)
Lemma upload_no_body_no_cookie :
  run (upload_handler extname_simple NoBody env_all_ok)
  = (Normal tt,
     [ Console (lit "Error processing file upload:") (LogError TypeError);
       Respond (Send 500 (lit "Internal Server Error")) ])
  /\ ~ In (Cookie (lit "uploadMessage") (lit "Your file was uploaded successfully!") 3000)
         (trace_of (upload_handler extname_simple NoBody env_all_ok)).
Proof.
  split; [reflexivity |].
  intros [H | [H | []]]; discriminate H.
Qed.

(** C10: when the extension of the uploaded file does not classify, the
    handler calls nothing remote and answers with a script that alerts
    "Invalid file type: Please submit a JPG, PNG, or PDF." and then sets
    [window.location.href] to the success destination with a second
    [https://] in front of it, which is not the success destination. *)
Theorem upload_unclassified_page extname req env f :
  file req = Some f ->
  getMimeType (extname (originalname f)) = None ->
  run (upload_handler extname req env)
  = (Normal tt,
     [ Cookie (lit "uploadMessage") (lit "Your file was uploaded successfully!") 3000;
       Respond (Send 200 invalid_type_page) ])
  /\ invalid_type_page
     = lit "<script>alert('" ++ errorMessage ++ lit "'); window.location.href = '"
       ++ (lit "https://" ++ success_url) ++ lit "';</script>"
  /\ errorMessage = lit "Invalid file type: Please submit a JPG, PNG, or PDF."
  /\ startsWith (lit "https://https://") (lit "https://" ++ success_url) = true
  /\ lit "https://" ++ success_url <> success_url
  /\ response_of (trace_of (upload_handler extname_simple pdf_request env_all_ok))
     = Some (Redirect success_url).
Proof.
  intros Hf Hm. split; [| repeat split; try reflexivity; discriminate].
  unfold run, upload_handler. rewrite (file_has_body _ _ Hf), Hf. run_handler.
  rewrite Hm. run_handler. reflexivity.
Qed.

(** A GIF upload gets the page and nothing else happens. *)
Lemma upload_unclassified_page_gif :
  run (upload_handler extname_simple gif_request env_all_ok)
  = (Normal tt,
     [ Cookie (lit "uploadMessage") (lit "Your file was uploaded successfully!") 3000;
       Respond (Send 200 invalid_type_page) ]).
Proof.
  apply (upload_unclassified_page extname_simple gif_request env_all_ok
           {| originalname := lit "exempt.gif"; buffer := [71; 73; 70] |}).
  - reflexivity.
  - reflexivity.
Defined.

(** On the successful path the handler redirects to [success_url]. *)
Lemma upload_success_redirects :
  response_of (trace_of (upload_handler extname_simple pdf_request env_all_ok))
  = Some (Redirect success_url).
Proof. reflexivity. Qed.

(** When every step through the metafield link succeeds, the staff
    notification is sent and awaited inside the handler's [try], with no
    [catch] of its own, and its outcome decides the response: a redirect to
    the success destination when the send succeeds, 500 Internal Server
    Error when it fails. *)
Lemma upload_response_follows_mail
    extname req env f mimeType company customer sbody params url resourceUrl form
    tbody fbody fileId mbody :
  file req = Some f ->
  getMimeType (extname (originalname f)) = Some mimeType ->
  ToString (customerCompany req) = Normal company ->
  ToString (customerId req) = Normal customer ->
  staged_reply env = Resolved sbody ->
  save_target_info (axios_response sbody) = Normal (params, url, resourceUrl) ->
  forEach_append params [] = Normal form ->
  target_reply env = Resolved tbody ->
  file_reply env = Resolved fbody ->
  get_path (axios_response fbody)
    [Key "data"; Key "data"; Key "fileCreate"; Key "files"; Index0; Key "id"]
  = Normal fileId ->
  metafield_reply env = Resolved mbody ->
  response_of (trace_of (upload_handler extname req env))
  = Some match mail_reply env with
         | Resolved _ => Redirect success_url
         | Rejected => internal_server_error
         end
  /\ In (SendMail (taxExemptDocumentUploadEmail (customerCompany req) (customerId req)))
       (trace_of (upload_handler extname req env)).
Proof.
  intros Hf Hm Hc Hcid Hs Ht Hp Htr Hfr Hid Hmr.
  unfold trace_of.
  rewrite (upload_after_staging _ _ _ _ _ _ _ _ _ _ _ Hf Hm Hc Hs Ht Hp).
  unfold upload_from_transfer, upload_create_file, upload_link_file, staging_events.
  rewrite Htr, Hfr, Hmr. run_handler. rewrite Hid. run_handler.
  rewrite Hcid. run_handler. cbn [truthy axios_response]. rewrite Hc. run_handler.
  destruct (mail_reply env) as [[] |]; run_handler;
    (split; [reflexivity | cbn [In]; tauto]).
Qed.

(** The PDF upload with every step answered but the mail send. *)
Lemma upload_response_follows_mail_example :
  response_of (trace_of (upload_handler extname_simple pdf_request env_mail_fails))
  = Some internal_server_error
  /\ In (SendMail (taxExemptDocumentUploadEmail (str "Acme") (str "42")))
       (trace_of (upload_handler extname_simple pdf_request env_mail_fails)).
Proof.
  apply (upload_response_follows_mail extname_simple pdf_request env_mail_fails pdf_file
           (lit "application/pdf") (lit "Acme") (lit "42") staged_body
           (VArray (map parameter_object staged_parameters))
           (str "https://storage.example/")
           (str "https://storage.example/tmp/exempt.pdf")
           (map (fun nv => (fst nv, FormText (snd nv))) staged_parameters)
           (VString []) file_body (str "gid://shopify/GenericFile/7") metafield_body);
    reflexivity.
Defined.

(** C3 fails on the code. Every step through the metafield link succeeds
    and the mail send fails: the send of line 335 is awaited inside the
    handler's [try] with no [catch] of its own, so the rejection reaches the
    handler's [catch] block and the client gets 500 Internal Server Error
    and no redirect; with the same replies and a mail send that succeeds,
    the client is redirected. *)
Theorem upload_mail_failure_is_500 :
  run (upload_handler extname_simple pdf_request env_mail_fails)
  = (Normal tt,
     [ Cookie (lit "uploadMessage") (lit "Your file was uploaded successfully!") 3000;
       ShopifyPost
         (stagedUploadsCreate (lit "Acme Tax Exempt Form.pdf") (lit "POST")
            (lit "application/pdf") (lit "FILE"));
       TargetPost (str "https://storage.example/") (staged_form staged_parameters pdf_file);
       ShopifyPost (fileCreate (lit "FILE") (str "https://storage.example/tmp/exempt.pdf"));
       ShopifyPost
         (metafieldsSet (lit "tax_exempt_form") (lit "tax_exempt_forms")
            (lit "gid://shopify/Customer/42") (lit "file_reference")
            (str "gid://shopify/GenericFile/7"));
       SendMail (taxExemptDocumentUploadEmail (str "Acme") (str "42"));
       Console (lit "Error processing file upload:") (LogError RequestFailed);
       Respond (Send 500 (lit "Internal Server Error")) ])
  /\ response_of (trace_of (upload_handler extname_simple pdf_request env_mail_fails))
     = Some (Send 500 (lit "Internal Server Error"))
  /\ response_of (trace_of (upload_handler extname_simple pdf_request env_mail_fails))
     <> Some (Redirect success_url)
  /\ response_of (trace_of (upload_handler extname_simple pdf_request env_all_ok))
     = Some (Redirect success_url).
Proof.
  split; [reflexivity |]. split; [reflexivity |]. split; [discriminate | reflexivity].
Qed.

(** ** The transfer fails *)

Lemma upload_create_file_posts_first req mimeType resourceUrl env t :
  exists rest,
    snd (upload_create_file req mimeType resourceUrl env t)
    = t ++ ShopifyPost
             (fileCreate
                (if jsstring_eqb mimeType (lit "application/pdf")
                 then lit "FILE" else lit "IMAGE")
                resourceUrl)
           :: rest.
Proof.
  set (e := ShopifyPost _).
  set (k := fun r : value =>
              fileId <- lift (get_path r [Key "data"; Key "data"; Key "fileCreate";
                                          Key "files"; Index0; Key "id"]);;
              upload_link_file req fileId env).
  assert (Hk : emits_only (fun _ => True)
                 (bind (body <- await (file_reply env);; ret (axios_response body)) k)).
  { apply emits_only_bind.
    - apply emits_only_bind; [apply emits_only_await | intros b; apply emits_only_ret].
    - intros r. apply emits_only_bind; [apply emits_only_lift | intros fileId].
      now apply emits_only_upload_link_file. }
  destruct (Hk (t ++ [e])) as (rest & E & _). exists rest.
  rewrite <- app_assoc in E. exact E.
Qed.

(** Whenever the extension classifies, the company has a text, the
    staging reply is usable and the post to the staged target fails, the
    handler answers 500 and then posts the file creation to Shopify all the
    same. *)
Lemma upload_transfer_failure_posts_file
    extname req env f mimeType company sbody params url resourceUrl form :
  file req = Some f ->
  getMimeType (extname (originalname f)) = Some mimeType ->
  ToString (customerCompany req) = Normal company ->
  staged_reply env = Resolved sbody ->
  save_target_info (axios_response sbody) = Normal (params, url, resourceUrl) ->
  forEach_append params [] = Normal form ->
  target_reply env = Rejected ->
  exists rest,
    trace_of (upload_handler extname req env)
    = staging_events req (extname (originalname f)) mimeType url
        (form ++ [(lit "file", FormBuffer (buffer f))])
      ++ [ Console (lit "Error downloading file: ") (LogError RequestFailed);
           Respond internal_server_error;
           ShopifyPost
             (fileCreate
                (if jsstring_eqb mimeType (lit "application/pdf")
                 then lit "FILE" else lit "IMAGE")
                resourceUrl) ]
      ++ rest.
Proof.
  intros Hf Hm Hc Hs Ht Hp Htr.
  unfold trace_of.
  rewrite (upload_after_staging _ _ _ _ _ _ _ _ _ _ _ Hf Hm Hc Hs Ht Hp).
  unfold upload_from_transfer, staging_events. rewrite Htr. run_handler.
  match goal with
  | |- context [upload_create_file req mimeType resourceUrl env ?t0] =>
      destruct (upload_create_file_posts_first req mimeType resourceUrl env t0)
        as (rest & E);
      destruct (upload_create_file req mimeType resourceUrl env t0) as [[[] | e] t']
  end; cbn [snd] in E; subst t'.
  - exists rest. reflexivity.
  - match goal with
    | |- context [headers_sent ?t1] =>
        assert (Hsent : headers_sent t1 = true)
          by (unfold headers_sent; cbn [existsb is_respond app orb]; reflexivity);
        rewrite Hsent
    end.
    cbn [snd app]. eexists. reflexivity.
Qed.

(** C2 fails on the code. A PDF upload whose transfer to the staged target
    is rejected: the [catch] callback answers 500, and the handler goes on
    to post the file creation and the metafield link to Shopify and to send
    the staff mail; the redirect then throws because the response is
    already committed, and so does the handler's own [catch] block. *)
Theorem upload_transfer_failure_continues :
  run (upload_handler extname_simple pdf_request env_transfer_fails)
  = (Throw HeadersSent,
     [ Cookie (lit "uploadMessage") (lit "Your file was uploaded successfully!") 3000;
       ShopifyPost
         (stagedUploadsCreate (lit "Acme Tax Exempt Form.pdf") (lit "POST")
            (lit "application/pdf") (lit "FILE"));
       TargetPost (str "https://storage.example/") (staged_form staged_parameters pdf_file);
       Console (lit "Error downloading file: ") (LogError RequestFailed);
       Respond (Send 500 (lit "Internal Server Error"));
       ShopifyPost (fileCreate (lit "FILE") (str "https://storage.example/tmp/exempt.pdf"));
       ShopifyPost
         (metafieldsSet (lit "tax_exempt_form") (lit "tax_exempt_forms")
            (lit "gid://shopify/Customer/42") (lit "file_reference")
            (str "gid://shopify/GenericFile/7"));
       SendMail (taxExemptDocumentUploadEmail (str "Acme") (str "42"));
       Console (lit "Error processing file upload:") (LogError HeadersSent) ])
  /\ response_of (trace_of (upload_handler extname_simple pdf_request env_transfer_fails))
     = Some (Send 500 (lit "Internal Server Error"))
  /\ In (ShopifyPost (fileCreate (lit "FILE") (str "https://storage.example/tmp/exempt.pdf")))
       (trace_of (upload_handler extname_simple pdf_request env_transfer_fails))
  /\ In (ShopifyPost
           (metafieldsSet (lit "tax_exempt_form") (lit "tax_exempt_forms")
              (lit "gid://shopify/Customer/42") (lit "file_reference")
              (str "gid://shopify/GenericFile/7")))
       (trace_of (upload_handler extname_simple pdf_request env_transfer_fails)).
Proof.
  split; [reflexivity |]. split; [reflexivity |].
  split; [do 5 right; left; reflexivity | do 6 right; left; reflexivity].
Qed.

(** ** [POST /register] *)

(** The object literal [{ phoneNumber }] has no [replace]: the call of
    line 384 throws whatever the phone number is. *)
Lemma convertToE164_object (v : value) :
  convertToE164 (VObject [(lit "phoneNumber", v)]) = Throw TypeError.
Proof. reflexivity. Qed.

(** X15: every registration, whatever the body and the replies, ends in
    the handler's [catch] block before any remote call: the only events are
    the logged TypeError and the answer 500 Internal Server Error. *)
Lemma register_always_fails req env :
  run (register_handler req env)
  = (Normal tt,
     [ Console (lit "Error processing customer registration:") (LogError TypeError);
       Respond internal_server_error ]).
Proof.
  unfold run, register_handler. destruct (companyWebsite req); reflexivity.
Qed.

(** C1 fails on the code. For the registration of the scenario the handler
    posts no customer creation at all: [convertToE164] is called on the
    object [{ phoneNumber }] instead of the string, throws a TypeError, and
    the client gets 500 Internal Server Error. *)
Theorem register_acme_creates_nothing (env : register_env) :
  run (register_handler acme_request env)
  = (Normal tt,
     [ Console (lit "Error processing customer registration:") (LogError TypeError);
       Respond (Send 500 (lit "Internal Server Error")) ])
  /\ Forall (fun e => is_customerCreate e = false) (trace_of (register_handler acme_request env))
  /\ convertToE164 (VObject [(lit "phoneNumber", phoneNumber acme_request)])
     = Throw TypeError
  /\ convertToE164 (phoneNumber acme_request) = Normal (str "+15551234567").
Proof.
  split; [reflexivity |]. split; [| split; reflexivity].
  repeat constructor.
Qed.

(** With the phone number converted from the string, the rest of the
    handler does what the scenario says: exactly one customer creation,
    with the phone +15551234567 and a [company_website] metafield valued
    http://acme.com. *)
Lemma register_from_phone_acme (env : register_env) :
  exists rest,
    trace_of (register_from_phone acme_request (normalizeWebsite (lit "acme.com"))
                (str "+15551234567") env)
    = ShopifyPost
        (customerCreate
           (createCustomerVariables acme_request (lit "http://acme.com")
              (str "+15551234567")))
      :: rest
    /\ Forall (fun e => is_customerCreate e = false) rest
    /\ in_phone (createCustomerVariables acme_request (lit "http://acme.com")
                   (str "+15551234567"))
       = str "+15551234567"
    /\ In (info_metafield "company_website" "url" (str "http://acme.com"))
         (in_metafields (createCustomerVariables acme_request (lit "http://acme.com")
                           (str "+15551234567"))).
Proof.
  assert (Hrest : emits_only (fun e => is_customerCreate e = false)
            (bind (body <- await (customer_reply env);; ret (axios_response body))
               (fun r => register_with_reply acme_request r env))).
  { apply emits_only_bind.
    - apply emits_only_bind; [apply emits_only_await | intros b; apply emits_only_ret].
    - intros r. now apply emits_only_register_with_reply. }
  destruct (Hrest [ShopifyPost
                     (customerCreate
                        (createCustomerVariables acme_request (lit "http://acme.com")
                           (str "+15551234567")))])
    as (rest & E & Hall).
  exists rest. split; [exact E |]. split; [exact Hall |]. split; [reflexivity |].
  cbn. tauto.
Qed.






(** The handler as written does not get that far: with a customer creation
    that would return no customer, the registration of the scenario throws
    at line 384, before the customer creation is posted, sends no mail and
    answers 500 Internal Server Error (the defect of C1). *)
Lemma register_no_customer_is_500 :
  run (register_handler acme_request env_no_customer)
  = (Normal tt,
     [ Console (lit "Error processing customer registration:") (LogError TypeError);
       Respond (Send 500 (lit "Internal Server Error")) ])
  /\ response_of (trace_of (register_handler acme_request env_no_customer))
     <> Some (Redirect success_url)
  /\ Forall (fun e => is_send_mail e = false)
       (trace_of (register_handler acme_request env_no_customer)).
Proof.
  split; [reflexivity |]. split; [discriminate |].
  repeat constructor.
Qed.

(** * Further properties of the code *)

(** ** [getMimeType] *)

Lemma jsstring_eqb_eq (a b : jsstring) : jsstring_eqb a b = true <-> a = b.
Proof.
  revert b; induction a as [|x a IH]; intros [|y b]; simpl; split;
    try congruence; try reflexivity.
  - intros H. apply andb_true_iff in H as [Hx Hab].
    apply N.eqb_eq in Hx. apply IH in Hab. congruence.
  - intros H. injection H as -> ->. rewrite N.eqb_refl. simpl. now apply IH.
Qed.

Lemma lower_unit_inv (c l : code_unit) :
  l < 65 \/ 90 < l ->
  (lower_unit c = l <-> c = l \/ (65 <= c /\ c <= 90 /\ l = c + 32)).
Proof.
  intros Hl. unfold lower_unit.
  destruct (N.leb_spec 65 c), (N.leb_spec c 90); cbn [andb]; lia.
Qed.

Lemma toLowerCase_spells (e w : jsstring) :
  Forall (fun l => l < 65 \/ 90 < l) w ->
  (toLowerCase e = w <-> same_ignoring_case e w).
Proof.
  intros Hw. revert e. induction Hw as [| l w Hl _ IH]; intros e.
  - split.
    + destruct e; [constructor | discriminate].
    + intros H. now inversion H.
  - destruct e as [|c e]; simpl.
    + split; [discriminate | intros H; inversion H].
    + split.
      * intros H. injection H as Hc He. constructor;
          [now apply lower_unit_inv | now apply IH].
      * intros H. inversion H as [| ? ? ? ? Hc He]; subst.
        f_equal; [now apply lower_unit_inv | now apply IH].
Qed.

Lemma lower_word (w : string) :
  forallb (fun l => (l <? 65) || (90 <? l)) (lit w) = true ->
  forall e, toLowerCase e = lit w <-> same_ignoring_case e (lit w).
Proof.
  intros H e. apply toLowerCase_spells. apply Forall_forall. intros l Hin.
  rewrite forallb_forall in H. specialize (H l Hin).
  apply orb_true_iff in H as [H | H]; apply N.ltb_lt in H; auto.
Qed.

(** X1: [getMimeType] classifies an extension exactly when it spells
    [.png], [.jpg], [.jpeg] or [.pdf] up to the case of its letters, as
    image/png, image/jpeg, image/jpeg and application/pdf; every other
    string, the empty one included, gives null. [.PDF] classifies and
    [.gif] and [pdf] without the dot do not. *)
Theorem getMimeType_spellings (e m : jsstring) :
  (getMimeType e = Some m
   <-> (same_ignoring_case e (lit ".png") /\ m = lit "image/png")
       \/ ((same_ignoring_case e (lit ".jpg") \/ same_ignoring_case e (lit ".jpeg"))
           /\ m = lit "image/jpeg")
       \/ (same_ignoring_case e (lit ".pdf") /\ m = lit "application/pdf"))
  /\ getMimeType (lit ".PDF") = Some (lit "application/pdf")
  /\ getMimeType (lit ".gif") = None
  /\ getMimeType (lit "pdf") = None
  /\ getMimeType [] = None.
Proof.
  split; [| repeat split; reflexivity].
  rewrite <- (lower_word ".png" eq_refl), <- (lower_word ".jpg" eq_refl),
    <- (lower_word ".jpeg" eq_refl), <- (lower_word ".pdf" eq_refl).
  unfold getMimeType. generalize (toLowerCase e). intros L.
  destruct (jsstring_eqb L (lit ".png")) eqn:E1.
  { apply jsstring_eqb_eq in E1. subst L. split.
    - intros H. injection H as <-. left. now split.
    - intros [[_ ->] | [[[H | H] _] | [H _]]]; try reflexivity; discriminate H. }
  destruct (jsstring_eqb L (lit ".jpg")) eqn:E2.
  { apply jsstring_eqb_eq in E2. subst L. split.
    - intros H. injection H as <-. right. left. split; [now left | reflexivity].
    - intros [[H _] | [[_ ->] | [H _]]]; try reflexivity; discriminate H. }
  destruct (jsstring_eqb L (lit ".jpeg")) eqn:E3.
  { apply jsstring_eqb_eq in E3. subst L. split.
    - intros H. injection H as <-. right. left. split; [now right | reflexivity].
    - intros [[H _] | [[_ ->] | [H _]]]; try reflexivity; discriminate H. }
  destruct (jsstring_eqb L (lit ".pdf")) eqn:E4.
  { apply jsstring_eqb_eq in E4. subst L. split.
    - intros H. injection H as <-. right. right. now split.
    - intros [[H _] | [[[H | H] _] | [_ ->]]]; try reflexivity; discriminate H. }
  split; [discriminate |].
  intros [[H _] | [[[H | H] _] | [H _]]]; apply jsstring_eqb_eq in H; congruence.
Qed.

(** ** [convertToE164], further *)

Lemma filter_digits_id (d : jsstring) :
  Forall (fun c => is_digit c = true) d -> filter is_digit d = d.
Proof.
  induction 1 as [| c d Hc _ IH]; simpl; [reflexivity |]. now rewrite Hc, IH.
Qed.

Lemma convertToE164_result (s r : jsstring) :
  convertToE164 (VString s) = Normal (VString r) ->
  exists d, r = lit "+1" ++ d /\ List.length d = 10%nat
            /\ Forall (fun c => is_digit c = true) d.
Proof.
  unfold convertToE164. pose proof (strip_non_digits_digits s) as Hd.
  generalize dependent (strip_non_digits s). intros d Hd.
  destruct (startsWith (lit "1") d && (N.of_nat (List.length d) =? 11)) eqn:E11.
  - apply andb_true_iff in E11 as [H1 Hlen]. apply startsWith_app in H1 as [d' ->].
    apply N.eqb_eq in Hlen. intros H. injection H as <-.
    exists d'. split; [reflexivity |]. split.
    + simpl in Hlen. lia.
    + now inversion Hd.
  - destruct (N.of_nat (List.length d) =? 10) eqn:E10; [| discriminate].
    apply N.eqb_eq in E10. intros H. injection H as <-.
    exists d. split; [reflexivity |]. split; [lia | assumption].
Qed.

Lemma convertToE164_of_digits (s d : jsstring) :
  strip_non_digits s = d -> List.length d = 10%nat ->
  convertToE164 (VString s) = Normal (VString (lit "+1" ++ d)).
Proof.
  intros <- Hlen. unfold convertToE164.
  assert (E11 : (N.of_nat (List.length (strip_non_digits s)) =? 11) = false)
    by (apply N.eqb_neq; lia).
  assert (E10 : (N.of_nat (List.length (strip_non_digits s)) =? 10) = true)
    by (apply N.eqb_eq; lia).
  now rewrite E11, andb_false_r, E10.
Qed.

Lemma convertToE164_of_digits_with_1 (s d : jsstring) :
  strip_non_digits s = 49 :: d -> List.length d = 10%nat ->
  convertToE164 (VString s) = Normal (VString (lit "+1" ++ d)).
Proof.
  intros E Hlen. unfold convertToE164. rewrite E.
  change (List.length (49 :: d)) with (S (List.length d)). rewrite Hlen. reflexivity.
Qed.

(** X2: whenever [convertToE164] returns a string for a string, the
    result is [+1] followed by exactly ten digits, and the function maps
    that result to itself: a number that was normalised once stays as it
    is. *)
Theorem convertToE164_e164 (s r : jsstring) :
  convertToE164 (VString s) = Normal (VString r) ->
  (exists d, r = lit "+1" ++ d /\ List.length d = 10%nat
             /\ Forall (fun c => is_digit c = true) d)
  /\ convertToE164 (VString r) = Normal (VString r).
Proof.
  intros H. destruct (convertToE164_result s r H) as (d & -> & Hlen & Hd).
  split; [now exists d |].
  apply convertToE164_of_digits_with_1; [| assumption].
  unfold strip_non_digits. simpl. f_equal. now apply filter_digits_id.
Qed.

(** The phone number of the scenario, normalised twice. *)
Lemma convertToE164_e164_example :
  (exists d, lit "+15551234567" = lit "+1" ++ d /\ List.length d = 10%nat
             /\ Forall (fun c => is_digit c = true) d)
  /\ convertToE164 (VString (lit "+15551234567")) = Normal (VString (lit "+15551234567")).
Proof.
  apply (convertToE164_e164 (lit "(555) 123-4567") (lit "+15551234567")).
  reflexivity.
Defined.

(** X3: the country code is optional and punctuation does not count: a
    string whose digits are a ten-digit number and a string whose digits
    are 1 followed by the same number both give [+1] and the number. *)
Theorem convertToE164_country_code (a b d : jsstring) :
  strip_non_digits a = d ->
  strip_non_digits b = 49 :: d ->
  List.length d = 10%nat ->
  convertToE164 (VString a) = Normal (VString (lit "+1" ++ d))
  /\ convertToE164 (VString b) = convertToE164 (VString a).
Proof.
  intros Ha Hb Hlen.
  rewrite (convertToE164_of_digits a d Ha Hlen),
    (convertToE164_of_digits_with_1 b d Hb Hlen). now split.
Qed.

(** A national number with brackets and the same number with +1 and
    dots. *)
Lemma convertToE164_country_code_example :
  convertToE164 (VString (lit "(555) 123-4567")) = Normal (VString (lit "+15551234567"))
  /\ convertToE164 (VString (lit "+1 555.123.4567"))
     = convertToE164 (VString (lit "(555) 123-4567")).
Proof.
  apply (convertToE164_country_code (lit "(555) 123-4567") (lit "+1 555.123.4567")
           (lit "5551234567")); reflexivity.
Defined.

(** ** The website, from the form to the metafield *)

Lemma normalizeWebsite_cases (s : jsstring) :
  (exists rest, s = lit "http://" ++ rest /\ normalizeWebsite s = s)
  \/ (exists rest, s = lit "https://" ++ rest /\ normalizeWebsite s = s)
  \/ (startsWith (lit "http://") s = false /\ startsWith (lit "https://") s = false
      /\ normalizeWebsite s = lit "http://" ++ s).
Proof.
  unfold normalizeWebsite.
  destruct (startsWith (lit "http://") s) eqn:E1.
  - left. apply startsWith_app in E1 as [rest ->]. now exists rest.
  - destruct (startsWith (lit "https://") s) eqn:E2.
    + right. left. apply startsWith_app in E2 as [rest ->]. now exists rest.
    + right. right. auto.
Qed.

(** X4: the normalised website always starts with [http://] or
    [https://], and normalising it again changes nothing. *)
Theorem normalizeWebsite_idempotent (s : jsstring) :
  (startsWith (lit "http://") (normalizeWebsite s) = true
   \/ startsWith (lit "https://") (normalizeWebsite s) = true)
  /\ normalizeWebsite (normalizeWebsite s) = normalizeWebsite s.
Proof.
  assert (H : startsWith (lit "http://") (normalizeWebsite s) = true
              \/ startsWith (lit "https://") (normalizeWebsite s) = true).
  { destruct (normalizeWebsite_cases s)
      as [(rest & -> & ->) | [(rest & -> & ->) | (_ & _ & ->)]].
    - left. apply startsWith_app. now exists rest.
    - right. apply startsWith_app. now exists rest.
    - left. apply startsWith_app. now exists s. }
  split; [exact H |].
  unfold normalizeWebsite at 1. destruct H as [-> | ->]; [reflexivity |].
  now rewrite andb_false_r.
Qed.

Lemma scheme_url_http (rest : jsstring) :
  scheme_url (lit "http://" ++ rest) <-> rest <> [].
Proof.
  split.
  - intros (scheme & rest' & Hin & E & Hne).
    destruct Hin as [<- | [<- | [<- | []]]]; cbn in E.
    + discriminate E.
    + injection E as <-. exact Hne.
    + discriminate E.
  - intros Hne. exists (lit "http"), rest. cbn. auto.
Qed.

Lemma scheme_url_https (rest : jsstring) :
  scheme_url (lit "https://" ++ rest) <-> rest <> [].
Proof.
  split.
  - intros (scheme & rest' & Hin & E & Hne).
    destruct Hin as [<- | [<- | [<- | []]]]; cbn in E.
    + discriminate E.
    + discriminate E.
    + injection E as <-. exact Hne.
  - intros Hne. exists (lit "https"), rest. cbn. auto.
Qed.

Lemma clean_http (rest : jsstring) :
  Forall (fun c => c <> 32 /\ c <> 34) (lit "http://" ++ rest)
  <-> Forall (fun c => c <> 32 /\ c <> 34) rest.
Proof.
  rewrite Forall_app. split; [tauto |]. intros H. split; [| exact H].
  repeat constructor; discriminate.
Qed.

Lemma clean_https (rest : jsstring) :
  Forall (fun c => c <> 32 /\ c <> 34) (lit "https://" ++ rest)
  <-> Forall (fun c => c <> 32 /\ c <> 34) rest.
Proof.
  rewrite Forall_app. split; [tauto |]. intros H. split; [| exact H].
  repeat constructor; discriminate.
Qed.

(** The raw websites that pass [urlRegex] once normalised. *)
Lemma website_gate (s : jsstring) :
  urlRegex_test (normalizeWebsite s) = true
  <-> s <> [] /\ s <> lit "http://" /\ s <> lit "https://"
      /\ Forall (fun c => c <> 32 /\ c <> 34) s.
Proof.
  rewrite urlRegex_test_spec.
  destruct (normalizeWebsite_cases s)
    as [(rest & -> & ->) | [(rest & -> & ->) | (N1 & N2 & ->)]].
  - rewrite scheme_url_http. split.
    + intros [Hne Hall]. repeat split; try assumption; try discriminate.
      intros E. apply Hne. change (lit "http://") with (lit "http://" ++ []) in E at 2.
      now apply app_inv_head in E.
    + intros (_ & H & _ & Hall). split; [| assumption].
      intros ->. apply H. reflexivity.
  - rewrite scheme_url_https. split.
    + intros [Hne Hall]. repeat split; try assumption; try discriminate.
      intros E. apply Hne. change (lit "https://") with (lit "https://" ++ []) in E at 2.
      now apply app_inv_head in E.
    + intros (_ & _ & H & Hall). split; [| assumption].
      intros ->. apply H. reflexivity.
  - rewrite scheme_url_http, clean_http. split.
    + intros [Hne Hall]. repeat split; try assumption; intros ->; discriminate.
    + intros (Hne & _ & _ & Hall). now split.
Qed.

(** X5: the [company_website] metafield. With the website normalised as
    the handler does, the customer-creation variables carry the [company]
    and [phone_number] metafields first, and a [company_website] metafield
    exactly when the raw website is not empty, is not a bare [http://] or
    [https://], and has no space and no double quote in it; its value is
    then the normalised website. *)
Theorem company_website_metafield (req : register_request) (s : jsstring) (phone : value) :
  (urlRegex_test (normalizeWebsite s) = true
   <-> s <> [] /\ s <> lit "http://" /\ s <> lit "https://"
       /\ Forall (fun c => c <> 32 /\ c <> 34) s)
  /\ in_metafields (createCustomerVariables req (normalizeWebsite s) phone)
     = [ info_metafield "company" "single_line_text_field" (companyName req);
         info_metafield "phone_number" "single_line_text_field" phone ]
       ++ (if urlRegex_test (normalizeWebsite s)
           then [ info_metafield "company_website" "url" (VString (normalizeWebsite s)) ]
           else [])
  /\ ((exists m, In m (in_metafields (createCustomerVariables req (normalizeWebsite s) phone))
                 /\ mf_key m = lit "company_website")
      <-> urlRegex_test (normalizeWebsite s) = true).
Proof.
  split; [apply website_gate |].
  assert (Htruthy : truthy (VString (normalizeWebsite s)) = true).
  { destruct (normalizeWebsite_cases s)
      as [(rest & -> & ->) | [(rest & -> & ->) | (_ & _ & ->)]]; reflexivity. }
  assert (Hmf : in_metafields (createCustomerVariables req (normalizeWebsite s) phone)
     = [ info_metafield "company" "single_line_text_field" (companyName req);
         info_metafield "phone_number" "single_line_text_field" phone ]
       ++ (if urlRegex_test (normalizeWebsite s)
           then [ info_metafield "company_website" "url" (VString (normalizeWebsite s)) ]
           else [])).
  { unfold createCustomerVariables. cbn [in_metafields]. now rewrite Htruthy. }
  split; [exact Hmf |]. rewrite Hmf.
  destruct (urlRegex_test (normalizeWebsite s)).
  - split; [reflexivity |]. intros _. eexists. split; [right; right; left; reflexivity |].
    reflexivity.
  - split; [| discriminate].
    intros (m & [<- | [<- | []]] & Hk); vm_compute in Hk; discriminate Hk.
Qed.

(** ** [POST /upload], whatever the request and the replies *)

(** Case analysis on everything an upload depends on, in the order the
    handler consults it; each case is left with its trace computed. *)
Ltac upload_case :=
  run_handler; cbn [truthy axios_response res_object];
  lazymatch goal with
  | |- context [getMimeType ?e] => destruct (getMimeType e) eqn:?
  | |- context [ToString ?v] => destruct (ToString v) eqn:?
  | |- context [staged_reply ?env] => destruct (staged_reply env) eqn:?
  | |- context [save_target_info ?x] =>
      destruct (save_target_info x) as [[[? ?] ?] | ?] eqn:?
  | |- context [forEach_append ?p []] => destruct (forEach_append p []) eqn:?
  | |- context [target_reply ?env] => destruct (target_reply env) eqn:?
  | |- context [file_reply ?env] => destruct (file_reply env) eqn:?
  | |- context [get_path ?x ?p] => destruct (get_path x p) eqn:?
  | |- context [metafield_reply ?env] => destruct (metafield_reply env) eqn:?
  | |- context [mail_reply ?env] => destruct (mail_reply env) as [[] |] eqn:?
  end.

Ltac upload_cases extname req env :=
  unfold trace_of, run, upload_handler, upload_classified, upload_create_file,
    upload_link_file;
  destruct req as [| cid cco [f |]]; cbn [has_body file customerId customerCompany];
  repeat upload_case; run_handler.

(** X6: the remote calls of an upload are a prefix of the chain stage,
    transfer, create the file, set the metafield, send the mail: whatever
    the request and the replies, the handler never makes a call before the
    one in front of it in the chain, never repeats one, and makes no other
    call. *)
Theorem upload_calls_in_order extname req env :
  exists n, calls (trace_of (upload_handler extname req env)) = firstn n upload_chain.
Proof.
  upload_cases extname req env;
    first [ now exists 0%nat | now exists 1%nat | now exists 2%nat
          | now exists 3%nat | now exists 4%nat | now exists 5%nat ].
Qed.

(** X7: every upload is answered, and with one of three responses: the
    invalid-file-type page, the redirect to the success destination, or
    500 Internal Server Error. *)
Theorem upload_always_answers extname req env :
  response_of (trace_of (upload_handler extname req env)) = Some (Send 200 invalid_type_page)
  \/ response_of (trace_of (upload_handler extname req env)) = Some (Redirect success_url)
  \/ response_of (trace_of (upload_handler extname req env)) = Some internal_server_error.
Proof.
  upload_cases extname req env;
    first [ left; reflexivity | right; left; reflexivity | right; right; reflexivity ].
Qed.

(** X8: the [else] branch of lines 337-340 is dead. What the handler tests
    is the response of axios or [res], both objects, so no upload ever logs
    "There was an error uploading the document". *)
Theorem upload_else_branch_dead extname req env :
  Forall (fun e => is_upload_error_log e = false)
    (trace_of (upload_handler extname req env)).
Proof.
  upload_cases extname req env; repeat constructor.
Qed.

(** ** [POST /upload], step by step *)

Lemma staging_result_normal env url resourceUrl form :
  staging_result env = Normal (url, resourceUrl, form) ->
  exists body params,
    staged_reply env = Resolved body
    /\ save_target_info (axios_response body) = Normal (params, url, resourceUrl)
    /\ forEach_append params [] = Normal form.
Proof.
  unfold staging_result. destruct (staged_reply env) as [body |]; [| discriminate].
  destruct (save_target_info (axios_response body)) as [[[params u] r] | e] eqn:Einfo;
    [| discriminate].
  cbn [and_then].
  destruct (forEach_append params []) as [fm | e] eqn:Eform; [| discriminate].
  cbn [and_then]. intros H. injection H as -> -> ->. now exists body, params.
Qed.

(** The run of an upload whose fields have a text and whose staging,
    transfer and file creation succeed, up to the awaited metafield post. *)
Lemma upload_run_linked
    extname req env f mimeType company customer url resourceUrl form tbody fileId :
  file req = Some f ->
  getMimeType (extname (originalname f)) = Some mimeType ->
  ToString (customerCompany req) = Normal company ->
  ToString (customerId req) = Normal customer ->
  staging_result env = Normal (url, resourceUrl, form) ->
  target_reply env = Resolved tbody ->
  file_id_result env = Normal fileId ->
  run (upload_handler extname req env)
  = try_catch
      (try_catch
         (body <- await (metafield_reply env);; ret (axios_response body))
         metafield_failed;;
       graph_sendMail
         (taxExemptDocumentUploadEmail (customerCompany req) (customerId req))
         (mail_reply env);;
       res_redirect success_url)
      upload_failed
      (staging_events req (extname (originalname f)) mimeType url
         (form ++ [(lit "file", FormBuffer (buffer f))])
       ++ linking_events req mimeType resourceUrl fileId).
Proof.
  intros Hf Hm Hc Hcid Hs Ht Hid.
  apply staging_result_normal in Hs as (body & params & Hs & Hinfo & Hform).
  rewrite (upload_after_staging _ _ _ _ _ _ _ _ _ _ _ Hf Hm Hc Hs Hinfo Hform).
  unfold file_id_result in Hid. destruct (file_reply env) as [fbody |] eqn:Hfr;
    [| discriminate].
  unfold upload_from_transfer, upload_create_file, upload_link_file, staging_events,
    linking_events.
  rewrite Ht, Hfr, (ToString_to_string _ _ Hcid). run_handler. rewrite Hid. run_handler.
  rewrite Hcid, Hc. run_handler.
  destruct (metafield_reply env); run_handler; cbn [truthy axios_response res_object];
    run_handler; reflexivity.
Qed.

(** X9: an upload without a file calls nothing remote and is answered
    500 Internal Server Error. With a body the cookie is set first and
    reading [file.originalname] throws; without a body the destructuring of
    line 103 throws before the cookie is set. *)
Theorem upload_without_file extname req env :
  file req = None ->
  run (upload_handler extname req env)
  = (Normal tt,
     (if has_body req
      then [ Cookie (lit "uploadMessage") (lit "Your file was uploaded successfully!")
               3000 ]
      else [])
     ++ [ Console (lit "Error processing file upload:") (LogError TypeError);
          Respond internal_server_error ]).
Proof.
  intros Hf. unfold run, upload_handler. rewrite Hf.
  destruct (has_body req); run_handler; reflexivity.
Qed.

(** The upload without the file field, and the request without a body. *)
Lemma upload_without_file_example :
  run (upload_handler extname_simple no_file_request env_all_ok)
  = (Normal tt,
     [ Cookie (lit "uploadMessage") (lit "Your file was uploaded successfully!") 3000;
       Console (lit "Error processing file upload:") (LogError TypeError);
       Respond internal_server_error ])
  /\ run (upload_handler extname_simple NoBody env_all_ok)
     = (Normal tt,
        [ Console (lit "Error processing file upload:") (LogError TypeError);
          Respond internal_server_error ]).
Proof.
  split.
  - apply (upload_without_file extname_simple no_file_request env_all_ok). reflexivity.
  - apply (upload_without_file extname_simple NoBody env_all_ok). reflexivity.
Defined.

(** X19: a field without a text stops the upload before any remote call.
    When [customerCompany] cannot be converted to text, as the object multer
    builds for a field named [customerCompany[name]] cannot, the template
    literal of the file name throws and the answer is 500 Internal Server
    Error. *)
Theorem upload_company_without_text extname req env f mimeType e :
  file req = Some f ->
  getMimeType (extname (originalname f)) = Some mimeType ->
  ToString (customerCompany req) = Throw e ->
  run (upload_handler extname req env)
  = (Normal tt,
     [ Cookie (lit "uploadMessage") (lit "Your file was uploaded successfully!") 3000;
       Console (lit "Error processing file upload:") (LogError e);
       Respond internal_server_error ]).
Proof.
  intros Hf Hm Hc. unfold run, upload_handler, upload_classified.
  rewrite (file_has_body _ _ Hf), Hf. run_handler. rewrite Hm. run_handler.
  rewrite Hc. run_handler. reflexivity.
Qed.

(** The upload whose company field is nested. *)
Lemma upload_company_without_text_example :
  run (upload_handler extname_simple nested_request env_all_ok)
  = (Normal tt,
     [ Cookie (lit "uploadMessage") (lit "Your file was uploaded successfully!") 3000;
       Console (lit "Error processing file upload:") (LogError TypeError);
       Respond internal_server_error ]).
Proof.
  apply (upload_company_without_text extname_simple nested_request env_all_ok pdf_file
           (lit "application/pdf") TypeError); reflexivity.
Defined.

(** X10: when the company has a text and the staging mutation is
    rejected, or its reply has no first target to read [parameters], [url]
    and [resourceUrl] from, the staging mutation is the only remote call and
    the answer is 500 Internal Server Error. *)
Theorem upload_staging_unusable extname req env f mimeType company e :
  file req = Some f ->
  getMimeType (extname (originalname f)) = Some mimeType ->
  ToString (customerCompany req) = Normal company ->
  staged_target_result env = Throw e ->
  run (upload_handler extname req env)
  = (Normal tt,
     [ Cookie (lit "uploadMessage") (lit "Your file was uploaded successfully!") 3000;
       ShopifyPost
         (stagedUploadsCreate
            (company ++ lit " Tax Exempt Form" ++ extname (originalname f))
            (lit "POST") mimeType (lit "FILE"));
       Console (lit "Error processing file upload:") (LogError e);
       Respond internal_server_error ]).
Proof.
  intros Hf Hm Hc Hs. unfold staged_target_result in Hs.
  unfold run, upload_handler, upload_classified.
  rewrite (file_has_body _ _ Hf), Hf. run_handler.
  rewrite Hm. run_handler. rewrite Hc. run_handler.
  destruct (staged_reply env) as [body |]; run_handler.
  - rewrite Hs. reflexivity.
  - injection Hs as <-. reflexivity.
Qed.

(** Shopify answers the staging with user errors and no target. *)
Lemma upload_staging_unusable_example :
  run (upload_handler extname_simple pdf_request env_no_target)
  = (Normal tt,
     [ Cookie (lit "uploadMessage") (lit "Your file was uploaded successfully!") 3000;
       ShopifyPost
         (stagedUploadsCreate (lit "Acme Tax Exempt Form.pdf")
            (lit "POST") (lit "application/pdf") (lit "FILE"));
       Console (lit "Error processing file upload:") (LogError TypeError);
       Respond internal_server_error ]).
Proof.
  apply (upload_staging_unusable extname_simple pdf_request env_no_target pdf_file
           (lit "application/pdf") (lit "Acme") TypeError); reflexivity.
Defined.

(** X11: when the company has a text, staging and the transfer succeed,
    and the file creation is rejected or its reply cannot be read down to a
    first file (no [data], no [fileCreate], no [files], or an empty
    [files]), the handler answers 500 Internal Server Error and posts no
    metafield and sends no mail: the uploaded bytes stay at the staged
    target, linked to nothing. *)
Theorem upload_file_creation_fails
    extname req env f mimeType company url resourceUrl form tbody e :
  file req = Some f ->
  getMimeType (extname (originalname f)) = Some mimeType ->
  ToString (customerCompany req) = Normal company ->
  staging_result env = Normal (url, resourceUrl, form) ->
  target_reply env = Resolved tbody ->
  file_id_result env = Throw e ->
  run (upload_handler extname req env)
  = (Normal tt,
     staging_events req (extname (originalname f)) mimeType url
       (form ++ [(lit "file", FormBuffer (buffer f))])
     ++ [ ShopifyPost
            (fileCreate
               (if jsstring_eqb mimeType (lit "application/pdf")
                then lit "FILE" else lit "IMAGE")
               resourceUrl);
          Console (lit "Error processing file upload:") (LogError e);
          Respond internal_server_error ]).
Proof.
  intros Hf Hm Hc Hs Ht Hid.
  apply staging_result_normal in Hs as (body & params & Hs & Hinfo & Hform).
  rewrite (upload_after_staging _ _ _ _ _ _ _ _ _ _ _ Hf Hm Hc Hs Hinfo Hform).
  unfold file_id_result in Hid.
  unfold upload_from_transfer, upload_create_file, staging_events.
  rewrite Ht. run_handler.
  destruct (file_reply env) as [fbody |]; run_handler.
  - rewrite Hid. run_handler. reflexivity.
  - injection Hid as <-. reflexivity.
Qed.

(** Shopify answers the file creation with user errors and no file. *)
Lemma upload_file_creation_fails_example :
  run (upload_handler extname_simple pdf_request env_no_file_created)
  = (Normal tt,
     staging_events pdf_request (lit ".pdf") (lit "application/pdf")
       (str "https://storage.example/") (staged_form staged_parameters pdf_file)
     ++ [ ShopifyPost (fileCreate (lit "FILE") (str "https://storage.example/tmp/exempt.pdf"));
          Console (lit "Error processing file upload:") (LogError TypeError);
          Respond internal_server_error ]).
Proof.
  apply (upload_file_creation_fails extname_simple pdf_request env_no_file_created pdf_file
           (lit "application/pdf") (lit "Acme") (str "https://storage.example/")
           (str "https://storage.example/tmp/exempt.pdf")
           (map (fun nv => (fst nv, FormText (snd nv))) staged_parameters)
           (VString []) TypeError); reflexivity.
Defined.



Lemma upload_run_success
    extname req env f mimeType company customer url resourceUrl form tbody fileId mbody :
  file req = Some f ->
  getMimeType (extname (originalname f)) = Some mimeType ->
  ToString (customerCompany req) = Normal company ->
  ToString (customerId req) = Normal customer ->
  staging_result env = Normal (url, resourceUrl, form) ->
  target_reply env = Resolved tbody ->
  file_id_result env = Normal fileId ->
  metafield_reply env = Resolved mbody ->
  mail_reply env = Resolved tt ->
  run (upload_handler extname req env)
  = (Normal tt,
     staging_events req (extname (originalname f)) mimeType url
       (form ++ [(lit "file", FormBuffer (buffer f))])
     ++ linking_events req mimeType resourceUrl fileId
     ++ [ SendMail (taxExemptDocumentUploadEmail (customerCompany req) (customerId req));
          Respond (Redirect success_url) ]).
Proof.
  intros Hf Hm Hc Hcid Hs Ht Hid Hmr Hmail.
  rewrite (upload_run_linked _ _ _ _ _ _ _ _ _ _ _ _ Hf Hm Hc Hcid Hs Ht Hid).
  unfold staging_events, linking_events. rewrite Hmr, Hmail. run_handler. reflexivity.
Qed.

(** X13: the successful upload. When both fields have a text and every
    step answers, the handler makes the five calls in order and passes each
    reply on: the staging
    target's [url] receives the form, its [resourceUrl] is the source of the
    file creation (as FILE for a PDF, as IMAGE otherwise), the id of the
    created file is the value of the metafield set on
    [gid://shopify/Customer/<customerId>], and after the staff mail the
    client is redirected to the success destination. *)
Theorem upload_succeeds
    extname req env f mimeType company customer url resourceUrl form tbody fileId mbody :
  file req = Some f ->
  getMimeType (extname (originalname f)) = Some mimeType ->
  ToString (customerCompany req) = Normal company ->
  ToString (customerId req) = Normal customer ->
  staging_result env = Normal (url, resourceUrl, form) ->
  target_reply env = Resolved tbody ->
  file_id_result env = Normal fileId ->
  metafield_reply env = Resolved mbody ->
  mail_reply env = Resolved tt ->
  run (upload_handler extname req env)
  = (Normal tt,
     [ Cookie (lit "uploadMessage") (lit "Your file was uploaded successfully!") 3000;
       ShopifyPost
         (stagedUploadsCreate
            (company ++ lit " Tax Exempt Form" ++ extname (originalname f))
            (lit "POST") mimeType (lit "FILE"));
       TargetPost url (form ++ [(lit "file", FormBuffer (buffer f))]);
       ShopifyPost
         (fileCreate
            (if jsstring_eqb mimeType (lit "application/pdf")
             then lit "FILE" else lit "IMAGE")
            resourceUrl);
       ShopifyPost
         (metafieldsSet (lit "tax_exempt_form") (lit "tax_exempt_forms")
            (lit "gid://shopify/Customer/" ++ customer)
            (lit "file_reference") fileId);
       SendMail (taxExemptDocumentUploadEmail (customerCompany req) (customerId req));
       Respond (Redirect success_url) ])
  /\ calls (trace_of (upload_handler extname req env)) = upload_chain.
Proof.
  intros Hf Hm Hc Hcid Hs Ht Hid Hmr Hmail. unfold trace_of.
  rewrite (upload_run_success _ _ _ _ _ _ _ _ _ _ _ _ _ Hf Hm Hc Hcid Hs Ht Hid Hmr Hmail).
  unfold staging_events, linking_events.
  rewrite (ToString_to_string _ _ Hc), (ToString_to_string _ _ Hcid).
  split; reflexivity.
Qed.

(** The PDF upload with every step answered. *)
Lemma upload_succeeds_example :
  calls (trace_of (upload_handler extname_simple pdf_request env_all_ok)) = upload_chain.
Proof.
  apply (upload_succeeds extname_simple pdf_request env_all_ok pdf_file
           (lit "application/pdf") (lit "Acme") (lit "42") (str "https://storage.example/")
           (str "https://storage.example/tmp/exempt.pdf")
           (map (fun nv => (fst nv, FormText (snd nv))) staged_parameters)
           (VString []) (str "gid://shopify/GenericFile/7") metafield_body); reflexivity.
Defined.

(** X14: the body fields are not checked. An upload whose form carried
    neither [customerId] nor [customerCompany] runs the whole chain with
    the text "undefined" in their place: the file is staged as
    "undefined Tax Exempt Form<ext>" and the metafield is set on
    [gid://shopify/Customer/undefined]. *)
Theorem upload_without_fields
    extname req env f mimeType url resourceUrl form tbody fileId mbody :
  customerId req = VUndefined ->
  customerCompany req = VUndefined ->
  file req = Some f ->
  getMimeType (extname (originalname f)) = Some mimeType ->
  staging_result env = Normal (url, resourceUrl, form) ->
  target_reply env = Resolved tbody ->
  file_id_result env = Normal fileId ->
  metafield_reply env = Resolved mbody ->
  mail_reply env = Resolved tt ->
  run (upload_handler extname req env)
  = (Normal tt,
     [ Cookie (lit "uploadMessage") (lit "Your file was uploaded successfully!") 3000;
       ShopifyPost
         (stagedUploadsCreate
            (lit "undefined Tax Exempt Form" ++ extname (originalname f))
            (lit "POST") mimeType (lit "FILE"));
       TargetPost url (form ++ [(lit "file", FormBuffer (buffer f))]);
       ShopifyPost
         (fileCreate
            (if jsstring_eqb mimeType (lit "application/pdf")
             then lit "FILE" else lit "IMAGE")
            resourceUrl);
       ShopifyPost
         (metafieldsSet (lit "tax_exempt_form") (lit "tax_exempt_forms")
            (lit "gid://shopify/Customer/undefined") (lit "file_reference") fileId);
       SendMail (taxExemptDocumentUploadEmail VUndefined VUndefined);
       Respond (Redirect success_url) ]).
Proof.
  intros Hid0 Hco Hf Hm Hs Ht Hid Hmr Hmail.
  assert (Hc : ToString (customerCompany req) = Normal (lit "undefined"))
    by now rewrite Hco.
  assert (Hcid : ToString (customerId req) = Normal (lit "undefined"))
    by now rewrite Hid0.
  rewrite (upload_run_success _ _ _ _ _ _ _ _ _ _ _ _ _ Hf Hm Hc Hcid Hs Ht Hid Hmr Hmail).
  unfold staging_events, linking_events. rewrite Hid0, Hco. reflexivity.
Qed.

(** The upload whose form carried the file only. *)
Lemma upload_without_fields_example :
  run (upload_handler extname_simple bare_request env_all_ok)
  = (Normal tt,
     [ Cookie (lit "uploadMessage") (lit "Your file was uploaded successfully!") 3000;
       ShopifyPost
         (stagedUploadsCreate (lit "undefined Tax Exempt Form.pdf")
            (lit "POST") (lit "application/pdf") (lit "FILE"));
       TargetPost (str "https://storage.example/") (staged_form staged_parameters pdf_file);
       ShopifyPost (fileCreate (lit "FILE") (str "https://storage.example/tmp/exempt.pdf"));
       ShopifyPost
         (metafieldsSet (lit "tax_exempt_form") (lit "tax_exempt_forms")
            (lit "gid://shopify/Customer/undefined") (lit "file_reference")
            (str "gid://shopify/GenericFile/7"));
       SendMail (taxExemptDocumentUploadEmail VUndefined VUndefined);
       Respond (Redirect success_url) ]).
Proof.
  apply (upload_without_fields extname_simple bare_request env_all_ok pdf_file
           (lit "application/pdf") (str "https://storage.example/")
           (str "https://storage.example/tmp/exempt.pdf")
           (map (fun nv => (fst nv, FormText (snd nv))) staged_parameters)
           (VString []) (str "gid://shopify/GenericFile/7") metafield_body); reflexivity.
Defined.

(** ** [POST /register], from the reply of the customer creation on *)

Lemma customer_with_id (customer customerId : value) :
  get customer "id" = Normal customerId -> truthy customerId = true ->
  truthy customer = true.
Proof.
  destruct customer; cbn; intros H Ht; try discriminate; try reflexivity;
    injection H as <-; discriminate Ht.
Qed.

(** X17: the mails of a registration. Lines 481-580 (which the handler as
    written never reaches, see C1), given a created customer with an id, an
    activation URL, and a text for each value the messages interpolate: the
    activation mail goes to the address of the form, the staff mail is sent
    only if the activation mail was, a failed send is logged, and the
    client is redirected to the success destination whatever the sends
    do. *)
Theorem register_mails
    (req : register_request) (env : register_env)
    (body created customer customerId activationUrl : value)
    (urlText companyText idText : jsstring) :
  get_path (axios_response body) [Key "data"; Key "data"; Key "customerCreate"]
  = Normal created ->
  get created "customer" = Normal customer ->
  get customer "id" = Normal customerId ->
  truthy customerId = true ->
  activation_url_result env = Normal activationUrl ->
  ToString activationUrl = Normal urlText ->
  ToString (companyName req) = Normal companyText ->
  ToString customerId = Normal idText ->
  run (register_with_reply req (axios_response body) env)
  = (Normal tt,
     [ ShopifyPost (customerGenerateAccountActivationUrl customerId);
       SendMail (accountActivationEmail (email req) activationUrl) ]
     ++ match activation_mail_reply env with
        | Resolved _ =>
            [ SendMail (newCustomerEmail (companyName req) customerId);
              match staff_mail_reply env with
              | Resolved _ => Console (lit "Emails sent successfully.") LogNothing
              | Rejected =>
                  Console (lit "Error sending activation email:") (LogError RequestFailed)
              end ]
        | Rejected =>
            [ Console (lit "Error sending activation email:") (LogError RequestFailed) ]
        end
     ++ [ Respond (Redirect success_url) ]).
Proof.
  intros Hc Hcust Hid Ht Hact Hurl Hco Hidt.
  pose proof (customer_with_id _ _ Hid Ht) as Htc.
  unfold activation_url_result in Hact.
  destruct (activation_reply env) as [abody |] eqn:Har; [| discriminate].
  unfold run, register_with_reply. rewrite Hc. run_handler.
  rewrite Hcust. run_handler. rewrite Htc, Hid. run_handler. rewrite Ht, Har.
  run_handler. rewrite Hact. run_handler. rewrite Hurl. run_handler.
  rewrite Hco, Hidt. run_handler.
  destruct (activation_mail_reply env) as [[] |]; run_handler;
    [destruct (staff_mail_reply env) as [[] |]; run_handler |]; reflexivity.
Qed.

(** A created customer whose activation mail cannot be sent. *)
Lemma register_mails_example :
  run (register_with_reply acme_request (axios_response customer_body)
         env_activation_mail_fails)
  = (Normal tt,
     [ ShopifyPost (customerGenerateAccountActivationUrl (str "gid://shopify/Customer/9"));
       SendMail (accountActivationEmail (str "a@b.com")
                   (str "https://shop.example/account/activate/9/abc"));
       Console (lit "Error sending activation email:") (LogError RequestFailed);
       Respond (Redirect success_url) ]).
Proof.
  apply (register_mails acme_request env_activation_mail_fails customer_body
           (obj [ prop "customer"
                    (obj [ prop "id" (str "gid://shopify/Customer/9");
                           prop "email" (str "a@b.com") ]);
                  prop "userErrors" (VArray []) ])
           (obj [ prop "id" (str "gid://shopify/Customer/9");
                  prop "email" (str "a@b.com") ])
           (str "gid://shopify/Customer/9")
           (str "https://shop.example/account/activate/9/abc")
           (lit "https://shop.example/account/activate/9/abc")
           (lit "Acme") (lit "gid://shopify/Customer/9")); reflexivity.
Defined.

(** X20: a company name without a text fails the registration after the
    customer exists. Lines 481-559 and the [catch] block of lines 581-584
    (unreached as the handler is written, see C1), given a created customer
    with an id and an activation URL: when [companyName] cannot be
    converted to text, as a JSON object with a [toString] key of its own
    cannot, the template literal of the staff mail throws before either
    mail is sent, and the answer is 500 Internal Server Error. *)
Theorem register_company_without_text
    (req : register_request) (env : register_env)
    (body created customer customerId activationUrl : value)
    (urlText : jsstring) (e : error) :
  get_path (axios_response body) [Key "data"; Key "data"; Key "customerCreate"]
  = Normal created ->
  get created "customer" = Normal customer ->
  get customer "id" = Normal customerId ->
  truthy customerId = true ->
  activation_url_result env = Normal activationUrl ->
  ToString activationUrl = Normal urlText ->
  ToString (companyName req) = Throw e ->
  run (try_catch (register_with_reply req (axios_response body) env) register_failed)
  = (Normal tt,
     [ ShopifyPost (customerGenerateAccountActivationUrl customerId);
       Console (lit "Error processing customer registration:") (LogError e);
       Respond internal_server_error ]).
Proof.
  intros Hc Hcust Hid Ht Hact Hurl Hco.
  pose proof (customer_with_id _ _ Hid Ht) as Htc.
  unfold activation_url_result in Hact.
  destruct (activation_reply env) as [abody |] eqn:Har; [| discriminate].
  unfold run, register_with_reply. rewrite Hc. run_handler.
  rewrite Hcust. run_handler. rewrite Htc, Hid. run_handler. rewrite Ht, Har.
  run_handler. rewrite Hact. run_handler. rewrite Hurl. run_handler.
  rewrite Hco. run_handler. reflexivity.
Qed.

(** A registration whose company name is an object with a [toString] key. *)
Lemma register_company_without_text_example :
  run (try_catch
         (register_with_reply shadowed_request (axios_response customer_body)
            env_activation_mail_fails)
         register_failed)
  = (Normal tt,
     [ ShopifyPost (customerGenerateAccountActivationUrl (str "gid://shopify/Customer/9"));
       Console (lit "Error processing customer registration:") (LogError TypeError);
       Respond internal_server_error ]).
Proof.
  apply (register_company_without_text shadowed_request env_activation_mail_fails
           customer_body
           (obj [ prop "customer"
                    (obj [ prop "id" (str "gid://shopify/Customer/9");
                           prop "email" (str "a@b.com") ]);
                  prop "userErrors" (VArray []) ])
           (obj [ prop "id" (str "gid://shopify/Customer/9");
                  prop "email" (str "a@b.com") ])
           (str "gid://shopify/Customer/9")
           (str "https://shop.example/account/activate/9/abc")
           (lit "https://shop.example/account/activate/9/abc") TypeError); reflexivity.
Defined.

(** X18: the activation URL cannot be generated. Lines 481-513 and the
    [catch] block of lines 581-584 (unreached as the handler is written,
    see C1), given a created customer with an id: when the activation
    mutation is rejected or its reply has no
    [customerGenerateAccountActivationUrl], no mail is sent and the answer
    is 500 Internal Server Error, although the customer exists. *)
Theorem register_activation_fails
    (req : register_request) (env : register_env)
    (body created customer customerId : value) (e : error) :
  get_path (axios_response body) [Key "data"; Key "data"; Key "customerCreate"]
  = Normal created ->
  get created "customer" = Normal customer ->
  get customer "id" = Normal customerId ->
  truthy customerId = true ->
  activation_url_result env = Throw e ->
  run (try_catch (register_with_reply req (axios_response body) env) register_failed)
  = (Normal tt,
     [ ShopifyPost (customerGenerateAccountActivationUrl customerId);
       Console (lit "Error processing customer registration:") (LogError e);
       Respond internal_server_error ]).
Proof.
  intros Hc Hcust Hid Ht Hact.
  pose proof (customer_with_id _ _ Hid Ht) as Htc.
  unfold activation_url_result in Hact.
  unfold run, register_with_reply. rewrite Hc. run_handler.
  rewrite Hcust. run_handler. rewrite Htc, Hid. run_handler. rewrite Ht.
  destruct (activation_reply env) as [abody |]; run_handler.
  - rewrite Hact. run_handler. reflexivity.
  - injection Hact as <-. reflexivity.
Qed.

(** A created customer whose activation mutation is rejected. *)
Lemma register_activation_fails_example :
  run (try_catch
         (register_with_reply acme_request (axios_response customer_body)
            env_activation_fails)
         register_failed)
  = (Normal tt,
     [ ShopifyPost (customerGenerateAccountActivationUrl (str "gid://shopify/Customer/9"));
       Console (lit "Error processing customer registration:") (LogError RequestFailed);
       Respond internal_server_error ]).
Proof.
  apply (register_activation_fails acme_request env_activation_fails customer_body
           (obj [ prop "customer"
                    (obj [ prop "id" (str "gid://shopify/Customer/9");
                           prop "email" (str "a@b.com") ]);
                  prop "userErrors" (VArray []) ])
           (obj [ prop "id" (str "gid://shopify/Customer/9");
                  prop "email" (str "a@b.com") ])
           (str "gid://shopify/Customer/9") RequestFailed); reflexivity.
Defined.
